(** * NicAPI DNS-01 solver: a shallow embedding of [nicapi.go]

    The Go package talks to the Lumaserv/NicAPI REST interface to create and
    remove the TXT record of an ACME DNS-01 challenge.  This development
    embeds its data types and its functions ([Present], [CleanUp],
    [getHostedZone], [findTxtRecord], [makeRequest]) and proves properties of
    the requests they send and of the results they return.

    Conventions.
    - Go strings are byte strings: [string] of the Standard Library.
    - Go's [int] and [int64] are [Z]; the program does no arithmetic on them
      besides the constant [120*60].
    - A Go pair [(value, error)] with a possibly nil pointer is a pair of
      options; a pointer that may be nil is an [option].
    - The remote provider, the zone lookup of cert-manager's [util] package
      and [encoding/json]'s decoder are collaborators outside the package:
      they are the fields of the class [Collaborators].
    - Every HTTP round trip is recorded in the [sent] log of the world, so
      that statements can count and order the requests of a run. *)

From Stdlib Require Import String Ascii List ZArith Bool Arith Lia.
From Stdlib Require Import DecimalString.
Import ListNotations.

Local Open Scope list_scope.
Local Open Scope string_scope.

(** ** Library functions on strings *)

Module strings.

(** [strings.HasSuffix]:
    [len(s) >= len(suffix) && s[len(s)-len(suffix):] == suffix]. *)
Definition HasSuffix (s suffix : string) : bool :=
  (String.length suffix <=? String.length s)%nat
  && (substring (String.length s - String.length suffix)
                (String.length suffix) s =? suffix).

(** [strings.TrimSuffix]:
    [if HasSuffix(s, suffix) { return s[:len(s)-len(suffix)] }; return s]. *)
Definition TrimSuffix (s suffix : string) : string :=
  if HasSuffix s suffix
  then substring 0 (String.length s - String.length suffix) s
  else s.

End strings.

Module util.

(** [util.UnFqdn] of cert-manager:
    [n := len(name); if n != 0 && name[n-1] == '.' { return name[:n-1] };
     return name]. *)
Definition UnFqdn (name : string) : string :=
  let n := String.length name in
  if negb (n =? 0)%nat
     && match get (n - 1) name with
        | Some c => Ascii.eqb c "."%char
        | None => false
        end
  then substring 0 (n - 1) name
  else name.

End util.

Module strconv.

(** [strconv.Itoa]: the decimal representation, with a leading minus sign
    for a negative number.  [fmt]'s verb [%d] prints an [int] the same
    way. *)
Definition Itoa (i : Z) : string :=
  NilZero.string_of_int (Z.to_int i).

End strconv.

(** Is [sub] a contiguous part of [s]? *)
Definition contains (s sub : string) : Prop :=
  exists pre post, s = pre ++ sub ++ post.

(** ** Data model *)

(** Go's [error] values.  [errNoExistingRecord] is the package variable
    created once with [errors.New]; the program compares errors with it by
    identity, and no other error is identical to it, whatever its text.
    Every other error ([fmt.Errorf], errors of the collaborators) is an
    [errorString]. *)
Inductive error : Type :=
| errNoExistingRecord
| errorString (text : string).

Definition Error (e : error) : string :=
  match e with
  | errNoExistingRecord => "no existing record found"
  | errorString text => text
  end.

(** [err == errNoExistingRecord] *)
Definition is_errNoExistingRecord (e : error) : bool :=
  match e with
  | errNoExistingRecord => true
  | errorString _ => false
  end.

(** The JSON documents the program sends.  [json.Marshal] turns a struct
    into the object of its tagged fields, in the order of declaration.  A
    document of this type holds the strings as the program has them: it is
    what the program gives to the encoder.  The encoder then writes every
    string with the bytes that are not valid UTF-8 replaced by U+FFFD;
    [Encoder.wire] below gives the document as it is written. *)
Set Warnings "-register-all".
Inductive json : Type :=
| JString (s : string)
| JNumber (n : Z)
| JArray (items : list json)
| JObject (members : list (string * json)).

Module dnsRecord.
(** [type dnsRecord struct]; the field [Type] is [Type_] here. *)
Record t : Type := mk {
  ID : Z;
  Name : string;
  TTL : string;
  Type_ : string;
  Data : string;
  ZoneID : string
}.
End dnsRecord.

Module dnsZone.
(** [type dnsZone struct { Zone struct { ID; Name; Records } }] *)
Record zone : Type := mkZone {
  ID : Z;
  Name : string;
  Records : list dnsRecord.t
}.
Record t : Type := mk { Zone : zone }.
End dnsZone.

Module dnsPostRecord.
(** [type dnsPostRecord struct] *)
Record t : Type := mk {
  Zone : string;
  Records : list dnsRecord.t
}.
End dnsPostRecord.

Module APIMessage.
(** [type APIMessage struct], local to [makeRequest] *)
Record t : Type := mk {
  Code : Z;
  Message : string
}.
End APIMessage.

Module APIResponse.
(** [type APIResponse struct], local to [makeRequest].  The three message
    lists are slices of pointers: an entry can be nil (a JSON [null]
    decodes to it).  [Raw] is [json.RawMessage]. *)
Record metadata : Type := mkMetaData {
  ClientTransactionId : string;
  ServerTransactionId : string
}.
Record messages : Type := mkMessages {
  Errors : list (option APIMessage.t);
  Warnings : list (option APIMessage.t);
  Success : list (option APIMessage.t)
}.
Record t (Raw : Type) : Type := mk {
  MetaData : metadata;
  Messages : messages;
  Status : string;
  Data : Raw
}.
Arguments mk {Raw}.
Arguments MetaData {Raw}.
Arguments Messages {Raw}.
Arguments Status {Raw}.
Arguments Data {Raw}.
End APIResponse.

Module Request.
(** What [makeRequest] puts into the [http.Request] it sends: the method,
    the URL without its query, the query parameters, the headers it sets
    and the body, as the document given to the encoder ([Encoder.wire] of
    it is the document on the wire). *)
Record t : Type := mk {
  Method : string;
  URL : string;
  Query : list (string * string);
  Header : list (string * string);
  Body : json
}.
End Request.

(** [type DNSProvider struct] *)
Record DNSProvider : Type := mkDNSProvider {
  dns01Nameservers : list string;
  authKey : string
}.

Definition APIURL : string := "https://connect.nicapi.eu/api/v1".

(** ** Encoding of the request bodies *)

Module Marshal.

(** A field tagged [omitempty] is left out when it has the zero value of
    its type. *)
Definition omitempty_string (key value : string) : list (string * json) :=
  if value =? "" then [] else [(key, JString value)].

Definition omitempty_int (key : string) (value : Z) : list (string * json) :=
  if (value =? 0)%Z then [] else [(key, JNumber value)].

Definition of_dnsRecord (r : dnsRecord.t) : json :=
  JObject
    (omitempty_int "id" (dnsRecord.ID r)
     ++ [("name", JString (dnsRecord.Name r))]
     ++ omitempty_string "ttl" (dnsRecord.TTL r)
     ++ [("type", JString (dnsRecord.Type_ r));
         ("data", JString (dnsRecord.Data r))]
     ++ omitempty_string "zone_id" (dnsRecord.ZoneID r))%list.

(** The program only marshals record lists written as slice literals,
    which encode as arrays. *)
Definition of_dnsPostRecord (p : dnsPostRecord.t) : json :=
  JObject
    [("zone", JString (dnsPostRecord.Zone p));
     ("records", JArray (map of_dnsRecord (dnsPostRecord.Records p)))].

(** [struct { Zone string `json:"zone"` }] of [getHostedZone] *)
Definition of_zone_request (zone : string) : json :=
  JObject [("zone", JString zone)].

End Marshal.

(** ** The world outside the package *)

(** What one HTTP exchange ([client.Do] followed by decoding the body as an
    [APIResponse]) can give. *)
Inductive Reply (Raw : Type) : Type :=
| DoError (e : error)
| DecodeError (e : error)
| Envelope (r : APIResponse.t Raw).
Arguments DoError {Raw}.
Arguments DecodeError {Raw}.
Arguments Envelope {Raw}.

(** The collaborators of the package:
    - [RawMessage]: the payload of an envelope as the decoder leaves it;
    - [Remote]: the state of the provider;
    - [CertManagerUserAgent]: the constant of cert-manager's [pkg/util];
    - [FindZoneByFqdn]: [util.FindZoneByFqdn];
    - [Unmarshal_dnsZone]: [json.Unmarshal] into a [dnsZone];
    - [Do]: the provider's answer to a request and its next state. *)
Class Collaborators : Type := {
  RawMessage : Type;
  Remote : Type;
  CertManagerUserAgent : string;
  FindZoneByFqdn : string -> list string -> error + string;
  Unmarshal_dnsZone : RawMessage -> error + dnsZone.t;
  Do : Remote -> Request.t -> Remote * Reply RawMessage
}.

(** ** Results and the monad of the package's functions *)

(** A Go function of this package returns a value with a nil error, returns
    an error, or panics (a nil pointer is dereferenced). *)
Inductive outcome (A : Type) : Type :=
| Return (a : A)
| Fail (e : error)
| Panic.
Arguments Return {A}.
Arguments Fail {A}.
Arguments Panic {A}.

Section Package.

Context {collab : Collaborators}.

Import strings util strconv.

Record World : Type := mkWorld {
  remote : Remote;
  sent : list Request.t
}.

Definition M (A : Type) : Type := World -> outcome A * World.

Definition ret {A : Type} (a : A) : M A := fun w => (Return a, w).

Definition fail {A : Type} (e : error) : M A := fun w => (Fail e, w).

(** [x, err := m; if err != nil { return err }; k x] *)
Definition bind {A B : Type} (m : M A) (k : A -> M B) : M B :=
  fun w =>
    match m w with
    | (Return a, w') => k a w'
    | (Fail e, w') => (Fail e, w')
    | (Panic, w') => (Panic, w')
    end.

End Package.

Notation "x <- m ;; k" := (bind m (fun x => k))
  (at level 61, m at next level, right associativity).

(** ** The functions of [nicapi.go] *)

Section Functions.

Context {collab : Collaborators}.

Import strings util strconv.

Definition tab : string := String "009"%char "".
Definition newline : string := String "010"%char "".

(** [fmt.Sprintf(".%s", name)] *)
Definition Sprintf_dot (name : string) : string := "." ++ name.

(** [fmt.Sprintf("\t Error: %d: %s", apiErr.Code, apiErr.Message)] *)
Definition Sprintf_Error (apiErr : APIMessage.t) : string :=
  tab ++ " Error: " ++ Itoa (APIMessage.Code apiErr) ++ ": "
      ++ APIMessage.Message apiErr.

(** The loop of [makeRequest] over [r.Messages.Errors], started with the
    current [errStr]: every entry appends its line.  Reading the fields of a
    nil entry panics: the loop then gives [None]. *)
Fixpoint range_Errors (errors : list (option APIMessage.t)) (errStr : string)
  : option string :=
  match errors with
  | [] => Some errStr
  | None :: _ => None
  | Some apiErr :: rest => range_Errors rest (errStr ++ Sprintf_Error apiErr)
  end.

(** [makeRequest]: one round trip, then the envelope is unwrapped.
    The model is of the calls whose method and URL [http.NewRequest]
    accepts, as the three calls of the package are ([endpoint] below): on
    any other method or URL the Go function returns the error of
    [http.NewRequest] and sends nothing, and a URI with a query of its own
    would add to the query parameters.  The lines printed to standard
    output are left out. *)
Definition makeRequest (c : DNSProvider) (method uri : string) (body : json)
  : M RawMessage :=
  fun w =>
    let req :=
      Request.mk method (APIURL ++ uri)
        [("authToken", authKey c)]
        [("User-Agent", CertManagerUserAgent);
         ("Content-Type", "application/json")]
        body in
    let (remote', reply) := Do (remote w) req in
    let w' := mkWorld remote' (sent w ++ [req])%list in
    match reply with
    | DoError err =>
        (Fail (errorString ("error querying API -> " ++ Error err)), w')
    | DecodeError err => (Fail err, w')
    | Envelope r =>
        if negb (APIResponse.Status r =? "success") then
          if (0 <? List.length (APIResponse.Errors (APIResponse.Messages r)))%nat
          then
            match range_Errors (APIResponse.Errors (APIResponse.Messages r)) ""
            with
            | Some errStr =>
                (Fail (errorString ("API Error " ++ newline ++ errStr)), w')
            | None => (Panic, w')
            end
          else (Fail (errorString "API error"), w')
        else (Return (APIResponse.Data r), w')
    end.

(** [getHostedZone]; [json.Marshal] cannot fail on the request struct. *)
Definition getHostedZone (c : DNSProvider) (fqdn : string) : M dnsZone.t :=
  match FindZoneByFqdn fqdn (dns01Nameservers c) with
  | inl err => fail err
  | inr authZone =>
      let body := Marshal.of_zone_request (UnFqdn authZone) in
      result <- makeRequest c "GET" "/dns/zones/show" body ;;
      match Unmarshal_dnsZone result with
      | inl err => fail err
      | inr hostedZone => ret hostedZone
      end
  end.

(** [findTxtRecord]: the pair (record pointer, error) of the Go function. *)
Definition findTxtRecord (c : DNSProvider) (zone : dnsZone.t) (fqdn : string)
  : option dnsRecord.t * option error :=
  let name :=
    TrimSuffix (UnFqdn fqdn) (Sprintf_dot (dnsZone.Name (dnsZone.Zone zone))) in
  (fix range (records : list dnsRecord.t) :=
     match records with
     | [] => (None, Some errNoExistingRecord)
     | rec :: rest =>
         if dnsRecord.Name rec =? name then (Some rec, None) else range rest
     end) (dnsZone.Records (dnsZone.Zone zone)).

(** The test [err != nil && err != errNoExistingRecord] of [Present] *)
Definition is_real_error (err : option error) : bool :=
  match err with
  | Some e => negb (is_errNoExistingRecord e)
  | None => false
  end.

(** [Present]; [json.Marshal] cannot fail on a [dnsPostRecord]. *)
Definition Present (c : DNSProvider) (domain fqdn value : string) : M unit :=
  zone <- getHostedZone c fqdn ;;
  let (record, err) := findTxtRecord c zone fqdn in
  if is_real_error err then
    (* this is a real error *)
    match err with Some e => fail e | None => ret tt end
  else
    let recordName :=
      TrimSuffix (UnFqdn fqdn)
                 (Sprintf_dot (dnsZone.Name (dnsZone.Zone zone))) in
    let add : M unit :=
      let recCol :=
        dnsPostRecord.mk (dnsZone.Name (dnsZone.Zone zone))
          [dnsRecord.mk 0 recordName (Itoa (120 * 60)) "TXT" value ""] in
      _ <- makeRequest c "POST" "/dns/zones/records/add"
             (Marshal.of_dnsPostRecord recCol) ;;
      ret tt in
    match record with
    | Some found =>
        if dnsRecord.Data found =? value then
          (* the record is already set to the desired value *)
          ret tt
        else
          let record :=
            dnsPostRecord.mk (dnsZone.Name (dnsZone.Zone zone))
              [dnsRecord.mk 0 recordName "" "" "" ""] in
          _ <- makeRequest c "DELETE" "/dns/zones/records/delete"
                 (Marshal.of_dnsPostRecord record) ;;
          add
    | None => add
    end.

(** [CleanUp] *)
Definition CleanUp (c : DNSProvider) (domain fqdn value : string) : M unit :=
  zone <- getHostedZone c fqdn ;;
  match snd (findTxtRecord c zone fqdn) with
  | Some err =>
      if is_errNoExistingRecord err then
        (* Nothing to cleanup *)
        ret tt
      else fail err
  | None =>
      let record :=
        dnsPostRecord.mk (dnsZone.Name (dnsZone.Zone zone))
          [dnsRecord.mk 0
             (TrimSuffix (UnFqdn fqdn)
                (Sprintf_dot (dnsZone.Name (dnsZone.Zone zone))))
             "" "" "" ""] in
      _ <- makeRequest c "DELETE" "/dns/zones/records/delete"
             (Marshal.of_dnsPostRecord record) ;;
      ret tt
  end.

End Functions.

(** ** Vocabulary of the statements *)

Section Vocabulary.

Context {collab : Collaborators}.

Import strings util strconv.

(** The relative name of the record: the expression
    [strings.TrimSuffix(util.UnFqdn(fqdn), fmt.Sprintf(".%s", zone.Zone.Name))]
    that [Present], [CleanUp] and [findTxtRecord] all compute. *)
Definition relativeName (fqdn zoneName : string) : string :=
  TrimSuffix (UnFqdn fqdn) (Sprintf_dot zoneName).

(** The request [makeRequest] builds from its arguments. *)
Definition request (c : DNSProvider) (method uri : string) (body : json)
  : Request.t :=
  Request.mk method (APIURL ++ uri)
    [("authToken", authKey c)]
    [("User-Agent", CertManagerUserAgent);
     ("Content-Type", "application/json")]
    body.

(** The world after one exchange of [req]. *)
Definition exchanged (req : Request.t) (w : World) : World :=
  mkWorld (fst (Do (remote w) req)) (sent w ++ [req])%list.

Definition showRequest (c : DNSProvider) (authZone : string) : Request.t :=
  request c "GET" "/dns/zones/show"
    (JObject [("zone", JString (UnFqdn authZone))]).

Definition deleteBody (zoneName name : string) : json :=
  JObject
    [("zone", JString zoneName);
     ("records",
      JArray
        [JObject
           [("name", JString name);
            ("type", JString "");
            ("data", JString "")]])].

Definition addBody (zoneName name value : string) : json :=
  JObject
    [("zone", JString zoneName);
     ("records",
      JArray
        [JObject
           [("name", JString name);
            ("ttl", JString "7200");
            ("type", JString "TXT");
            ("data", JString value)]])].

Definition deleteRequest (c : DNSProvider) (zoneName name : string)
  : Request.t :=
  request c "DELETE" "/dns/zones/records/delete" (deleteBody zoneName name).

Definition addRequest (c : DNSProvider) (zoneName name value : string)
  : Request.t :=
  request c "POST" "/dns/zones/records/add" (addBody zoneName name value).

Definition is_delete (req : Request.t) : bool :=
  Request.URL req =? APIURL ++ "/dns/zones/records/delete".

Definition is_add (req : Request.t) : bool :=
  Request.URL req =? APIURL ++ "/dns/zones/records/add".

(** The mutating calls are the requests to the two record endpoints. *)
Definition is_mutating (req : Request.t) : bool :=
  is_delete req || is_add req.

(** The requests a run of [m] from [w] adds to the log. *)
Definition issued {A : Type} (m : M A) (w : World) : list Request.t :=
  skipn (List.length (sent w)) (sent (snd (m w))).

Definition succeeds {A : Type} (o : outcome A) : bool :=
  match o with
  | Return _ => true
  | _ => false
  end.

(** [r] is the first record of the list that has the name. *)
Definition first_match (name : string) (records : list dnsRecord.t)
  (r : dnsRecord.t) : Prop :=
  exists before after,
    records = (before ++ r :: after)%list
    /\ Forall (fun x => dnsRecord.Name x <> name) before
    /\ dnsRecord.Name r = name.

Definition no_match (name : string) (records : list dnsRecord.t) : Prop :=
  Forall (fun x => dnsRecord.Name x <> name) records.

End Vocabulary.

(** ** The derived name, as the specification words it *)

(** Removing the trailing dot of a name, if it has one. *)
Inductive without_trailing_dot : string -> string -> Prop :=
| wtd_dot (s : string) : without_trailing_dot (s ++ ".") s
| wtd_none (s : string) :
    (forall p, s <> p ++ ".") -> without_trailing_dot s s.

(** Stripping a suffix from a string, if the string ends with it. *)
Inductive without_suffix (suffix : string) : string -> string -> Prop :=
| ws_strip (p : string) : without_suffix suffix (p ++ suffix) p
| ws_none (s : string) :
    (forall p, s <> p ++ suffix) -> without_suffix suffix s s.

(** First the trailing dot is removed, then the suffix made of a dot and
    the zone's name is stripped. *)
Definition derived_name (fqdn zoneName name : string) : Prop :=
  exists unqualified,
    without_trailing_dot fqdn unqualified
    /\ without_suffix ("." ++ zoneName) unqualified name.

(** ** Outcomes and traces *)

Section Outcomes.

Context {collab : Collaborators}.

(** The outcome of a call whose value is dropped ([_, err = ...]). *)
Definition void {A : Type} (o : outcome A) : outcome unit :=
  match o with
  | Return _ => Return tt
  | Fail e => Fail e
  | Panic => Panic
  end.

(** The outcome of the delete request of [Present] and [CleanUp], sent
    from [w]. *)
Definition delete_outcome (c : DNSProvider) (zoneName name : string)
  (w : World) : outcome RawMessage :=
  fst (makeRequest c "DELETE" "/dns/zones/records/delete"
         (deleteBody zoneName name) w).

(** The outcome of the create request of [Present], sent from [w]. *)
Definition add_outcome (c : DNSProvider) (zoneName name value : string)
  (w : World) : outcome RawMessage :=
  fst (makeRequest c "POST" "/dns/zones/records/add"
         (addBody zoneName name value) w).

(** What [Present] sends after the fetch of the zone. *)
Definition Present_mutations (c : DNSProvider) (fqdn value : string)
  (w : World) : list Request.t :=
  match getHostedZone c fqdn w with
  | (Return zone, w1) =>
      let zoneName := dnsZone.Name (dnsZone.Zone zone) in
      let name := relativeName fqdn zoneName in
      match find (fun rec => dnsRecord.Name rec =? name)
                 (dnsZone.Records (dnsZone.Zone zone)) with
      | Some found =>
          if dnsRecord.Data found =? value then []
          else
            deleteRequest c zoneName name
            :: (if succeeds (delete_outcome c zoneName name w1)
                then [addRequest c zoneName name value]
                else [])
      | None => [addRequest c zoneName name value]
      end
  | _ => []
  end.

(** What [CleanUp] sends after the fetch of the zone. *)
Definition CleanUp_mutations (c : DNSProvider) (fqdn : string) (w : World)
  : list Request.t :=
  match getHostedZone c fqdn w with
  | (Return zone, w1) =>
      let zoneName := dnsZone.Name (dnsZone.Zone zone) in
      let name := relativeName fqdn zoneName in
      match find (fun rec => dnsRecord.Name rec =? name)
                 (dnsZone.Records (dnsZone.Zone zone)) with
      | Some found => [deleteRequest c zoneName name]
      | None => []
      end
  | _ => []
  end.

(** The lines of the error text, one per message. *)
Fixpoint error_lines (messages : list APIMessage.t) : string :=
  match messages with
  | [] => ""
  | m :: rest => Sprintf_Error m ++ error_lines rest
  end.

End Outcomes.

(** ** An in-memory provider

    A provider that keeps one zone in memory, to run the functions on
    concrete inputs.  Its state is the zone and a table of endpoints that
    are out of order: a request to such an endpoint is answered with an
    envelope of status ["error"] and the errors of the table. *)

Module InMemory.

Inductive payload : Type :=
| ZonePayload (z : dnsZone.t)
| NoPayload.

Record state : Type := mkState {
  hosted : dnsZone.zone;
  out_of_order : list (string * list (option APIMessage.t))
}.

Fixpoint member {A : Type} (key : string) (members : list (string * A))
  : option A :=
  match members with
  | [] => None
  | (k, v) :: rest => if k =? key then Some v else member key rest
  end.

Definition string_member (key : string) (j : json) : string :=
  match j with
  | JObject members =>
      match member key members with
      | Some (JString s) => s
      | _ => ""
      end
  | _ => ""
  end.

Definition records_member (j : json) : list json :=
  match j with
  | JObject members =>
      match member "records" members with
      | Some (JArray items) => items
      | _ => []
      end
  | _ => []
  end.

Definition record_of_json (zone : dnsZone.zone) (n : nat) (j : json)
  : dnsRecord.t :=
  dnsRecord.mk (Z.of_nat (S n)) (string_member "name" j)
    (string_member "ttl" j) (string_member "type" j) (string_member "data" j)
    "".

Definition envelope (status : string) (errors : list (option APIMessage.t))
  (data : payload) : Reply payload :=
  Envelope
    (APIResponse.mk (APIResponse.mkMetaData "" "tx")
       (APIResponse.mkMessages errors [] []) status data).

Definition named_in (names : list string) (r : dnsRecord.t) : bool :=
  existsb (String.eqb (dnsRecord.Name r)) names.

Definition serve (s : state) (req : Request.t) : state * Reply payload :=
  let url := Request.URL req in
  let body := Request.Body req in
  let zone := hosted s in
  match member url (out_of_order s) with
  | Some errors => (s, envelope "error" errors NoPayload)
  | None =>
      if negb (string_member "zone" body =? dnsZone.Name zone) then
        (s, envelope "error"
              [Some (APIMessage.mk 1001 "invalid zone")] NoPayload)
      else if url =? APIURL ++ "/dns/zones/show" then
        (s, envelope "success" [] (ZonePayload (dnsZone.mk zone)))
      else if url =? APIURL ++ "/dns/zones/records/add" then
        let added :=
          map (record_of_json zone (List.length (dnsZone.Records zone)))
              (records_member body) in
        (mkState
           (dnsZone.mkZone (dnsZone.ID zone) (dnsZone.Name zone)
              (dnsZone.Records zone ++ added)%list)
           (out_of_order s),
         envelope "success" [] NoPayload)
      else if url =? APIURL ++ "/dns/zones/records/delete" then
        let names := map (string_member "name") (records_member body) in
        (mkState
           (dnsZone.mkZone (dnsZone.ID zone) (dnsZone.Name zone)
              (filter (fun r => negb (named_in names r))
                      (dnsZone.Records zone)))
           (out_of_order s),
         envelope "success" [] NoPayload)
      else (s, DoError (errorString "404 page not found"))
  end.

(** The zone lookup knows the zones [example.com.] and [example.org.]. *)
Definition find_zone (fqdn : string) (nameservers : list string)
  : error + string :=
  if strings.HasSuffix fqdn "example.com." then inr "example.com."
  else if strings.HasSuffix fqdn "example.org." then inr "example.org."
  else inl (errorString "could not find the start of authority").

Definition unmarshal (raw : payload) : error + dnsZone.t :=
  match raw with
  | ZonePayload z => inr z
  | NoPayload => inl (errorString "unexpected end of JSON input")
  end.

#[export] Instance collaborators : Collaborators := {
  RawMessage := payload;
  Remote := state;
  CertManagerUserAgent := "jetstack-cert-manager";
  FindZoneByFqdn := find_zone;
  Unmarshal_dnsZone := unmarshal;
  Do := serve
}.

Definition provider : DNSProvider := mkDNSProvider ["8.8.8.8:53"] "secret".

Definition txt (name data : string) : dnsRecord.t :=
  dnsRecord.mk 1 name "7200" "TXT" data "".

(** A world whose provider hosts [example.com] with the given records, and
    to which nothing was sent yet. *)
Definition world (records : list dnsRecord.t)
  (faults : list (string * list (option APIMessage.t))) : World :=
  mkWorld (mkState (dnsZone.mkZone 42 "example.com" records) faults) [].

End InMemory.

(** ** Concrete inputs *)

Module Inputs.

Import InMemory.

Definition fqdn : string := "_acme-challenge.example.com.".

Definition show : Request.t := showRequest provider "example.com.".

(** Two records of the same name: the first holds an old value, the second
    the value of the challenge. *)
Definition stale_then_fresh : World :=
  world [txt "_acme-challenge" "old"; txt "_acme-challenge" "abc123"] [].

(** Two records of the same name, the value of the challenge first. *)
Definition fresh_then_stale : World :=
  world [txt "_acme-challenge" "abc123"; txt "_acme-challenge" "old"] [].

(** One record with an old value, and a provider that refuses to delete. *)
Definition stale_no_delete : World :=
  world [txt "_acme-challenge" "old"]
    [(APIURL ++ "/dns/zones/records/delete",
      [Some (APIMessage.mk 1001 "invalid zone")])].

(** One record with an old value. *)
Definition stale : World := world [txt "_acme-challenge" "old"] [].

(** One record with the value of the challenge. *)
Definition fresh : World := world [txt "_acme-challenge" "abc123"] [].

(** No record. *)
Definition empty : World := world [] [].

(** Records of other names only. *)
Definition fresh_elsewhere : World :=
  world [txt "www" "abc123"; txt "_acme-challenge.sub" "old"] [].

(** The zone [example.com] with the records of a world. *)
Definition zone_of (w : World) : dnsZone.t := dnsZone.mk (hosted (remote w)).

(** A provider that answers the fetch of the zone with an envelope of
    status ["error"] whose list of errors is [[null]]. *)
Definition null_error : World :=
  world [] [(APIURL ++ "/dns/zones/show", [None])].

(** The same, with a message before the nil entry:
    [[{code: 1001, message: invalid zone}, null]]. *)
Definition null_after_error : World :=
  world []
    [(APIURL ++ "/dns/zones/show",
      [Some (APIMessage.mk 1001 "invalid zone"); None])].


Definition del : Request.t :=
  deleteRequest provider "example.com" "_acme-challenge".

Definition add : Request.t :=
  addRequest provider "example.com" "_acme-challenge" "abc123".

End Inputs.

(** ** The claims that fail, as they are written *)

(** C1 as written: some record of the fetched zone has the derived name
    and the value. *)
Definition Present_any_match_same_value_noop : Prop :=
  forall (collab : Collaborators) (c : DNSProvider)
    (domain fqdn value : string) (w w1 : World) (zone : dnsZone.t),
    getHostedZone c fqdn w = (Return zone, w1) ->
    (exists r,
       In r (dnsZone.Records (dnsZone.Zone zone))
       /\ dnsRecord.Name r
          = relativeName fqdn (dnsZone.Name (dnsZone.Zone zone))
       /\ dnsRecord.Data r = value) ->
    fst (Present c domain fqdn value w) = Return tt
    /\ filter is_mutating (issued (Present c domain fqdn value) w) = [].

(** C2 as written: some record of the fetched zone has the derived name
    and another value; one delete and then one create are sent. *)
Definition Present_any_match_other_value_replaces : Prop :=
  forall (collab : Collaborators) (c : DNSProvider)
    (domain fqdn value : string) (w w1 : World) (zone : dnsZone.t),
    getHostedZone c fqdn w = (Return zone, w1) ->
    (exists r,
       In r (dnsZone.Records (dnsZone.Zone zone))
       /\ dnsRecord.Name r
          = relativeName fqdn (dnsZone.Name (dnsZone.Zone zone))
       /\ dnsRecord.Data r <> value) ->
    filter is_mutating (issued (Present c domain fqdn value) w)
    = [deleteRequest c (dnsZone.Name (dnsZone.Zone zone))
         (relativeName fqdn (dnsZone.Name (dnsZone.Zone zone)));
       addRequest c (dnsZone.Name (dnsZone.Zone zone))
         (relativeName fqdn (dnsZone.Name (dnsZone.Zone zone))) value].

(** C7 as written: a delete request is a POST whose body holds the zone
    and a record with nothing but its name. *)
Definition delete_requests_POST_name_only : Prop :=
  forall (collab : Collaborators) (c : DNSProvider)
    (domain fqdn value : string) (w : World) (req : Request.t),
    In req (issued (Present c domain fqdn value) w)
    \/ In req (issued (CleanUp c domain fqdn value) w) ->
    is_delete req = true ->
    Request.Method req = "POST"
    /\ exists zoneName name,
         Request.Body req
         = JObject
             [("zone", JString zoneName);
              ("records", JArray [JObject [("name", JString name)]])].

(** ** Construction of the provider *)

Module os.

(** [os.Getenv]: the value of the variable in the environment of the
    process, the empty string when the variable is not set. *)
Definition Getenv (environ : string -> option string) (key : string)
  : string :=
  match environ key with
  | Some value => value
  | None => ""
  end.

End os.

(** [NewDNSProviderCredentials]: the pair (provider pointer, error). *)
Definition NewDNSProviderCredentials (key : string)
  (dns01Nameservers : list string) : option DNSProvider * option error :=
  if key =? "" then (None, Some (errorString "credentials missing"))
  else (Some (mkDNSProvider dns01Nameservers key), None).

(** [NewDNSProvider], in the environment [environ] of the process. *)
Definition NewDNSProvider (environ : string -> option string)
  (dns01Nameservers : list string) : option DNSProvider * option error :=
  let key := os.Getenv environ "LUMASERV_API_KEY" in
  NewDNSProviderCredentials key dns01Nameservers.

(** ** More inputs *)

Module Cases.

Import InMemory.

(** A name under a zone the lookup does not know. *)
Definition unknown_fqdn : string := "_acme-challenge.example.net.".

(** An environment in which only the key of the provider is set. *)
Definition environ (key : string) (variable : string) : option string :=
  if variable =? "LUMASERV_API_KEY" then Some key else None.

(** A provider that hosts a stale record, accepts the delete and refuses
    the add. *)
Definition stale_no_add : World :=
  world [txt "_acme-challenge" "old"]
    [(APIURL ++ "/dns/zones/records/add",
      [Some (APIMessage.mk 1002 "quota exceeded");
       Some (APIMessage.mk (-7) "try later")])].

End Cases.

(** ** The strings on the wire *)

Module utf8.

Definition between (lo hi : N) (c : ascii) : bool :=
  ((lo <=? N_of_ascii c) && (N_of_ascii c <=? hi))%N.

(** A continuation byte, [0x80..0xBF]. *)
Definition continuation (c : ascii) : bool := between 128 191 c.

(** For a byte from [0x80] on: the length of the sequence it starts and
    the range its second byte must be in, as in the table [first] of
    [unicode/utf8]; none for a byte that starts no sequence. *)
Definition first (c : ascii) : option (nat * (N * N)) :=
  let b := N_of_ascii c in
  if (b <? 194)%N then None
  else if (b <=? 223)%N then Some (2, (128, 191)%N)
  else if (b =? 224)%N then Some (3, (160, 191)%N)
  else if (b <=? 236)%N then Some (3, (128, 191)%N)
  else if (b =? 237)%N then Some (3, (128, 159)%N)
  else if (b <=? 239)%N then Some (3, (128, 191)%N)
  else if (b =? 240)%N then Some (4, (144, 191)%N)
  else if (b <=? 243)%N then Some (4, (128, 191)%N)
  else if (b =? 244)%N then Some (4, (128, 143)%N)
  else None.

(** The encoding of U+FFFD, [EF BF BD]. *)
Definition RuneError : string :=
  String "239"%char (String "191"%char (String "189"%char "")).

End utf8.

Module Encoder.

(** The string [encoding/json] writes for a Go string: the encoder goes
    through the bytes, keeps a byte below [0x80] and a well-formed sequence
    of two to four bytes, and writes U+FFFD for a byte that
    [utf8.DecodeRuneInString] refuses (the error rune with width 1), going
    on with the next byte.  The escapes of the encoder change how a
    character is written, not which character it is. *)
Fixpoint coerce (s : string) : string :=
  match s with
  | EmptyString => EmptyString
  | String c rest =>
      if (N_of_ascii c <? 128)%N then String c (coerce rest)
      else
        match utf8.first c, rest with
        | Some (2, (lo, hi)), String c2 r2 =>
            if utf8.between lo hi c2
            then String c (String c2 (coerce r2))
            else utf8.RuneError ++ coerce rest
        | Some (3, (lo, hi)), String c2 (String c3 r3) =>
            if utf8.between lo hi c2 && utf8.continuation c3
            then String c (String c2 (String c3 (coerce r3)))
            else utf8.RuneError ++ coerce rest
        | Some (4, (lo, hi)), String c2 (String c3 (String c4 r4)) =>
            if utf8.between lo hi c2 && utf8.continuation c3
               && utf8.continuation c4
            then String c (String c2 (String c3 (String c4 (coerce r4))))
            else utf8.RuneError ++ coerce rest
        | _, _ => utf8.RuneError ++ coerce rest
        end
  end.

(** The document on the wire: every string value as the encoder writes
    it.  The keys of the objects are the tags of the structs. *)
Fixpoint wire (j : json) : json :=
  match j with
  | JString s => JString (coerce s)
  | JNumber n => JNumber n
  | JArray items => JArray (map wire items)
  | JObject members =>
      JObject (map (fun member => (fst member, wire (snd member))) members)
  end.

End Encoder.

(** The encoder writes the string as it is: the string is valid UTF-8. *)
Definition valid_utf8 (s : string) : Prop := Encoder.coerce s = s.


(** ** The calls of the package *)

(** The three calls of [makeRequest] in the package, with the method and
    the URI each passes. *)
Inductive endpoint : Type :=
| ShowZone
| DeleteRecords
| AddRecords.

Definition method_of (e : endpoint) : string :=
  match e with
  | ShowZone => "GET"
  | DeleteRecords => "DELETE"
  | AddRecords => "POST"
  end.

Definition uri_of (e : endpoint) : string :=
  match e with
  | ShowZone => "/dns/zones/show"
  | DeleteRecords => "/dns/zones/records/delete"
  | AddRecords => "/dns/zones/records/add"
  end.

Section Replay.

Context {collab : Collaborators}.

(** The state of the provider after it has served the requests, in
    order, from the state [s]. *)
Definition replay (requests : list Request.t) (s : Remote) : Remote :=
  fold_left (fun state req => fst (Do state req)) requests s.

End Replay.

(** ** A provider out of reach *)

Module Offline.

(** No exchange succeeds: the client gives up on every request. *)
Definition cause : error := errorString "dial tcp: i/o timeout".

Definition collaborators : Collaborators := {|
  RawMessage := unit;
  Remote := unit;
  CertManagerUserAgent := "jetstack-cert-manager";
  FindZoneByFqdn := InMemory.find_zone;
  Unmarshal_dnsZone :=
    fun _ => inl (errorString "unexpected end of JSON input");
  Do := fun s _ => (s, DoError cause)
|}.

Definition world : @World collaborators :=
  @mkWorld collaborators tt [].

End Offline.

(** ** Inputs that are not valid UTF-8 *)

Module Bytes.

(** The byte [0xFF] and the byte [0xFE]: neither starts a sequence. *)
Definition xff : string := String "255"%char "".


End Bytes.

(** C3 as written: on the wire, the record of a create request holds the
    value the caller gave, whatever its bytes. *)
Definition create_requests_carry_value_as_given : Prop :=
  forall (collab : Collaborators) (c : DNSProvider)
    (domain fqdn value : string) (w : World) (req : Request.t),
    In req (issued (Present c domain fqdn value) w) ->
    is_add req = true ->
    exists zoneName name,
      Encoder.wire (Request.Body req)
      = JObject
          [("zone", JString zoneName);
           ("records",
            JArray
              [JObject
                 [("name", JString name);
                  ("ttl", JString "7200");
                  ("type", JString "TXT");
                  ("data", JString value)]])].

(** * Proofs *)

(** ** Facts on the string functions *)

Section StringFacts.

Lemma append_nil_r (s : string) : s ++ "" = s.
Proof. induction s as [|c s IH]; simpl; [reflexivity | now rewrite IH]. Qed.

Lemma append_assoc (a b c : string) : (a ++ b) ++ c = a ++ (b ++ c).
Proof. induction a as [|x a IH]; simpl; [reflexivity | now rewrite IH]. Qed.

Lemma length_append (a b : string) :
  String.length (a ++ b) = String.length a + String.length b.
Proof. induction a as [|x a IH]; simpl; [reflexivity | now rewrite IH]. Qed.

Lemma substring_all (s : string) : substring 0 (String.length s) s = s.
Proof. induction s as [|c s IH]; simpl; [reflexivity | now rewrite IH]. Qed.

Lemma substring_prefix (a b : string) :
  substring 0 (String.length a) (a ++ b) = a.
Proof.
  induction a as [|x a IH]; simpl.
  - destruct b; reflexivity.
  - now rewrite IH.
Qed.

Lemma substring_suffix (a b : string) :
  substring (String.length a) (String.length b) (a ++ b) = b.
Proof.
  induction a as [|x a IH]; simpl.
  - apply substring_all.
  - exact IH.
Qed.

(** Cutting a string at any position within it gives two parts that
    append to the string. *)
Lemma substring_split (s : string) (n : nat) :
  n <= String.length s ->
  substring 0 n s ++ substring n (String.length s - n) s = s.
Proof.
  revert n; induction s as [|c s IH]; intros n Hn; simpl in *.
  - destruct n; [reflexivity | lia].
  - destruct n as [|n]; simpl.
    + now rewrite substring_all.
    + rewrite IH by lia. reflexivity.
Qed.

Lemma append_inj_l (a b c : string) :
  String.length a = String.length b -> a ++ c = b ++ c -> a = b.
Proof.
  revert b; induction a as [|x a IH]; intros [|y b] Hl H; simpl in *;
    try discriminate; try reflexivity.
  injection H as -> H. f_equal. apply IH; [lia | exact H].
Qed.

Lemma get_append_last (a : string) (c : ascii) :
  get (String.length a) (a ++ String c "") = Some c.
Proof. induction a as [|x a IH]; simpl; [reflexivity | exact IH]. Qed.

Lemma get_last_split (s : string) (n : nat) (c : ascii) :
  String.length s = S n ->
  get n s = Some c ->
  s = substring 0 n s ++ String c "".
Proof.
  revert n; induction s as [|x s IH]; intros n Hl Hg; [discriminate|].
  simpl in Hl. destruct n as [|n]; simpl in *.
  - destruct s; [|discriminate]. now injection Hg as ->.
  - f_equal. apply IH; [lia | exact Hg].
Qed.

End StringFacts.

Section SuffixFacts.

Import strings util.

Lemma HasSuffix_append (p suffix : string) :
  HasSuffix (p ++ suffix) suffix = true.
Proof.
  unfold HasSuffix. rewrite length_append.
  replace (String.length p + String.length suffix - String.length suffix)
    with (String.length p) by lia.
  rewrite substring_suffix, String.eqb_refl, andb_true_r.
  apply Nat.leb_le. lia.
Qed.

Lemma HasSuffix_inv (s suffix : string) :
  HasSuffix s suffix = true ->
  s = substring 0 (String.length s - String.length suffix) s ++ suffix.
Proof.
  unfold HasSuffix. intros H.
  apply andb_true_iff in H as [Hlen Heq].
  apply Nat.leb_le in Hlen. apply String.eqb_eq in Heq.
  pose proof (substring_split s (String.length s - String.length suffix))
    as Hs.
  replace (String.length s - (String.length s - String.length suffix))
    with (String.length suffix) in Hs by lia.
  rewrite Heq in Hs. symmetry. apply Hs. lia.
Qed.

(** [HasSuffix] decides whether the string ends with the suffix. *)
Lemma HasSuffix_iff (s suffix : string) :
  HasSuffix s suffix = true <-> exists p, s = p ++ suffix.
Proof.
  split.
  - intros H. eexists. apply HasSuffix_inv, H.
  - intros [p ->]. apply HasSuffix_append.
Qed.

Lemma TrimSuffix_append (p suffix : string) :
  TrimSuffix (p ++ suffix) suffix = p.
Proof.
  unfold TrimSuffix. rewrite HasSuffix_append, length_append.
  replace (String.length p + String.length suffix - String.length suffix)
    with (String.length p) by lia.
  apply substring_prefix.
Qed.

Lemma TrimSuffix_noop (s suffix : string) :
  HasSuffix s suffix = false -> TrimSuffix s suffix = s.
Proof. unfold TrimSuffix. now intros ->. Qed.

Lemma UnFqdn_dot (s : string) : UnFqdn (s ++ ".") = s.
Proof.
  unfold UnFqdn. rewrite length_append. simpl String.length.
  replace (String.length s + 1 - 1) with (String.length s) by lia.
  rewrite get_append_last.
  replace (String.length s + 1 =? 0)%nat with false
    by (symmetry; apply Nat.eqb_neq; lia).
  simpl. apply substring_prefix.
Qed.

Lemma UnFqdn_cases (s : string) :
  (exists p, s = p ++ "." /\ UnFqdn s = p)
  \/ ((forall p, s <> p ++ ".") /\ UnFqdn s = s).
Proof.
  destruct (HasSuffix s ".") eqn:E.
  - left. apply HasSuffix_iff in E as [p ->].
    exists p. split; [reflexivity | apply UnFqdn_dot].
  - right. split.
    + intros p ->. now rewrite HasSuffix_append in E.
    + unfold UnFqdn. cbv zeta.
      destruct (String.length s) as [|n] eqn:Hl; [reflexivity|].
      simpl. rewrite Nat.sub_0_r.
      destruct (get n s) as [c|] eqn:Hg; [|reflexivity].
      destruct (Ascii.eqb_spec c "."%char) as [->|]; [|reflexivity].
      apply get_last_split in Hg; [|exact Hl].
      rewrite Hg, HasSuffix_append in E. discriminate.
Qed.

End SuffixFacts.

(** ** The derived name *)

Section DerivedName.

Import strings util.

Lemma append_cancel_r (a b suffix : string) :
  a ++ suffix = b ++ suffix -> a = b.
Proof.
  intros H. apply append_inj_l with (c := suffix); [|exact H].
  apply (f_equal String.length) in H. rewrite !length_append in H. lia.
Qed.

Lemma UnFqdn_spec (s : string) : without_trailing_dot s (UnFqdn s).
Proof.
  destruct (UnFqdn_cases s) as [[p [-> ->]] | [Hno ->]].
  - constructor.
  - constructor. exact Hno.
Qed.

Lemma TrimSuffix_spec (s suffix : string) :
  without_suffix suffix s (TrimSuffix s suffix).
Proof.
  destruct (HasSuffix s suffix) eqn:E.
  - apply HasSuffix_iff in E as [p ->]. rewrite TrimSuffix_append.
    constructor.
  - rewrite TrimSuffix_noop by exact E. constructor.
    intros p ->. now rewrite HasSuffix_append in E.
Qed.

Lemma without_suffix_fun (suffix s a b : string) :
  without_suffix suffix s a -> without_suffix suffix s b -> a = b.
Proof.
  intros Ha Hb. inversion Ha as [p Hp Hpa | s' Hno Hs Hsa]; subst;
    inversion Hb as [q Hq Hqb | s'' Hno' Hs' Hsb]; subst.
  - eapply append_cancel_r; eauto.
  - exfalso. eapply Hno'. reflexivity.
  - exfalso. eapply Hno. eauto.
  - reflexivity.
Qed.

Lemma without_trailing_dot_fun (s a b : string) :
  without_trailing_dot s a -> without_trailing_dot s b -> a = b.
Proof.
  intros Ha Hb. inversion Ha as [p Hp Hpa | s' Hno Hs Hsa]; subst;
    inversion Hb as [q Hq Hqb | s'' Hno' Hs' Hsb]; subst.
  - eapply append_cancel_r; eauto.
  - exfalso. eapply Hno'. reflexivity.
  - exfalso. eapply Hno. eauto.
  - reflexivity.
Qed.

Lemma derived_name_relativeName (fqdn zoneName : string) :
  derived_name fqdn zoneName (relativeName fqdn zoneName).
Proof.
  exists (UnFqdn fqdn). split; [apply UnFqdn_spec | apply TrimSuffix_spec].
Qed.

Lemma derived_name_fun (fqdn zoneName a b : string) :
  derived_name fqdn zoneName a -> derived_name fqdn zoneName b -> a = b.
Proof.
  intros [u [Hu Ha]] [v [Hv Hb]].
  assert (u = v) as -> by (eapply without_trailing_dot_fun; eauto).
  eapply without_suffix_fun; eauto.
Qed.

(** A fully qualified name inside the zone loses its dot and the zone. *)
Lemma relativeName_in_zone (label zoneName : string) :
  relativeName (label ++ "." ++ zoneName ++ ".") zoneName = label.
Proof.
  unfold relativeName, Sprintf_dot.
  rewrite <- !append_assoc, UnFqdn_dot, append_assoc.
  apply TrimSuffix_append.
Qed.

End DerivedName.

(** ** Runs of the functions *)

Section Runs.

Context {collab : Collaborators}.

Import strings util strconv.

Lemma skipn_length_app {A : Type} (l x : list A) :
  skipn (List.length l) (l ++ x)%list = x.
Proof. induction l as [|a l IH]; simpl; [reflexivity | exact IH]. Qed.

Lemma Itoa_ttl : Itoa (120 * 60) = "7200".
Proof. reflexivity. Qed.

(** *** [makeRequest] *)

Lemma makeRequest_world (c : DNSProvider) (method uri : string) (body : json)
  (w : World) :
  snd (makeRequest c method uri body w)
  = exchanged (request c method uri body) w.
Proof.
  unfold makeRequest, exchanged. fold (request c method uri body).
  destruct (Do (remote w) (request c method uri body)) as [s reply].
  destruct reply as [e | e | r]; simpl; try reflexivity.
  destruct (negb (APIResponse.Status r =? "success")); [|reflexivity].
  destruct (0 <? _)%nat; [|reflexivity].
  destruct (range_Errors _ _); reflexivity.
Qed.

Lemma issued_makeRequest (c : DNSProvider) (method uri : string)
  (body : json) (w : World) :
  issued (makeRequest c method uri body) w = [request c method uri body].
Proof.
  unfold issued. rewrite makeRequest_world. simpl.
  apply skipn_length_app.
Qed.

Lemma makeRequest_pair (c : DNSProvider) (method uri : string) (body : json)
  (w : World) :
  makeRequest c method uri body w
  = (fst (makeRequest c method uri body w),
     exchanged (request c method uri body) w).
Proof. rewrite <- makeRequest_world. apply surjective_pairing. Qed.

(** *** [findTxtRecord] *)

Lemma findTxtRecord_find (c : DNSProvider) (zone : dnsZone.t)
  (fqdn : string) :
  findTxtRecord c zone fqdn
  = match find (fun rec => dnsRecord.Name rec
                           =? relativeName fqdn
                                (dnsZone.Name (dnsZone.Zone zone)))
               (dnsZone.Records (dnsZone.Zone zone)) with
    | Some rec => (Some rec, None)
    | None => (None, Some errNoExistingRecord)
    end.
Proof.
  unfold findTxtRecord. fold (relativeName fqdn
                                (dnsZone.Name (dnsZone.Zone zone))).
  induction (dnsZone.Records (dnsZone.Zone zone)) as [|rec rest IH];
    simpl; [reflexivity|].
  destruct (dnsRecord.Name rec =? _); [reflexivity | exact IH].
Qed.

Lemma find_first_match (name : string) (records : list dnsRecord.t)
  (r : dnsRecord.t) :
  find (fun rec => dnsRecord.Name rec =? name) records = Some r
  <-> first_match name records r.
Proof.
  split.
  - induction records as [|x rest IH]; simpl; [discriminate|].
    destruct (String.eqb_spec (dnsRecord.Name x) name) as [E|N].
    + intros [= ->]. exists [], rest. auto.
    + intros H. destruct (IH H) as (before & after & -> & Hb & Hr).
      exists (x :: before), after. auto.
  - intros (before & after & -> & Hb & Hr).
    induction Hb as [|x before Hx Hb IH]; simpl.
    + now rewrite (proj2 (String.eqb_eq _ _) Hr).
    + now rewrite (proj2 (String.eqb_neq _ _) Hx).
Qed.

Lemma find_no_match (name : string) (records : list dnsRecord.t) :
  find (fun rec => dnsRecord.Name rec =? name) records = None
  <-> no_match name records.
Proof.
  unfold no_match. induction records as [|x rest IH]; simpl.
  - split; auto.
  - destruct (String.eqb_spec (dnsRecord.Name x) name) as [E|N].
    + split; [discriminate|]. intros H. inversion H. contradiction.
    + rewrite IH. split; [auto | intros H; now inversion H].
Qed.

(** *** [getHostedZone] *)

Lemma getHostedZone_Return (c : DNSProvider) (fqdn : string) (w w1 : World)
  (zone : dnsZone.t) :
  getHostedZone c fqdn w = (Return zone, w1) ->
  exists authZone,
    FindZoneByFqdn fqdn (dns01Nameservers c) = inr authZone
    /\ w1 = exchanged (showRequest c authZone) w.
Proof.
  unfold getHostedZone.
  destruct (FindZoneByFqdn fqdn (dns01Nameservers c)) as [e | authZone];
    [discriminate|].
  unfold bind. rewrite makeRequest_pair.
  destruct (fst _) as [raw | e |]; try discriminate.
  destruct (Unmarshal_dnsZone raw); [discriminate|].
  intros [= _ <-]. exists authZone. auto.
Qed.

Lemma getHostedZone_issued (c : DNSProvider) (fqdn : string) (w : World) :
  issued (getHostedZone c fqdn) w
  = match FindZoneByFqdn fqdn (dns01Nameservers c) with
    | inl _ => []
    | inr authZone => [showRequest c authZone]
    end.
Proof.
  unfold issued, getHostedZone.
  destruct (FindZoneByFqdn fqdn (dns01Nameservers c)) as [e | authZone].
  - simpl. rewrite <- (app_nil_r (sent w)) at 2. apply skipn_length_app.
  - unfold bind. rewrite makeRequest_pair.
    destruct (fst _) as [raw | e |];
      try (simpl; apply skipn_length_app).
    destruct (Unmarshal_dnsZone raw); simpl; apply skipn_length_app.
Qed.

End Runs.

(** *** [Present] and [CleanUp] after the zone is fetched *)

Section Orchestration.

Context {collab : Collaborators}.

Import strings util strconv.

Lemma succeeds_void {A : Type} (o : outcome A) :
  void o = Return tt <-> succeeds o = true.
Proof. destruct o; simpl; split; congruence. Qed.

Lemma Present_run (c : DNSProvider) (domain fqdn value : string)
  (w : World) :
  Present c domain fqdn value w
  = match getHostedZone c fqdn w with
    | (Return zone, w1) =>
        let zoneName := dnsZone.Name (dnsZone.Zone zone) in
        let name := relativeName fqdn zoneName in
        match find (fun rec => dnsRecord.Name rec =? name)
                   (dnsZone.Records (dnsZone.Zone zone)) with
        | Some found =>
            if dnsRecord.Data found =? value then (Return tt, w1)
            else
              let w2 := exchanged (deleteRequest c zoneName name) w1 in
              match delete_outcome c zoneName name w1 with
              | Return _ =>
                  (void (add_outcome c zoneName name value w2),
                   exchanged (addRequest c zoneName name value) w2)
              | Fail e => (Fail e, w2)
              | Panic => (Panic, w2)
              end
        | None =>
            (void (add_outcome c zoneName name value w1),
             exchanged (addRequest c zoneName name value) w1)
        end
    | (Fail e, w1) => (Fail e, w1)
    | (Panic, w1) => (Panic, w1)
    end.
Proof.
  unfold Present. unfold bind at 1.
  destruct (getHostedZone c fqdn w) as [[zone | e |] w1]; try reflexivity.
  rewrite findTxtRecord_find. cbv zeta.
  fold (relativeName fqdn (dnsZone.Name (dnsZone.Zone zone))).
  set (zoneName := dnsZone.Name (dnsZone.Zone zone)).
  set (name := relativeName fqdn zoneName).
  assert (Hadd : forall w0,
    (_ <- makeRequest c "POST" "/dns/zones/records/add"
            (Marshal.of_dnsPostRecord
               (dnsPostRecord.mk zoneName
                  [dnsRecord.mk 0 name (Itoa (120 * 60)) "TXT" value ""])) ;;
     ret tt) w0
    = (void (add_outcome c zoneName name value w0),
       exchanged (addRequest c zoneName name value) w0)).
  { intros w0. unfold bind, add_outcome.
    change (Marshal.of_dnsPostRecord _) with (addBody zoneName name value).
    rewrite makeRequest_pair.
    destruct (fst _); reflexivity. }
  destruct (find _ _) as [found|];
    cbv beta iota delta [is_real_error is_errNoExistingRecord negb].
  - destruct (dnsRecord.Data found =? value); [reflexivity|].
    unfold bind at 1.
    change (Marshal.of_dnsPostRecord
              (dnsPostRecord.mk zoneName [dnsRecord.mk 0 name "" "" "" ""]))
      with (deleteBody zoneName name).
    rewrite makeRequest_pair. fold (delete_outcome c zoneName name w1).
    destruct (delete_outcome c zoneName name w1); try reflexivity.
    apply Hadd.
  - apply Hadd.
Qed.

Lemma CleanUp_run (c : DNSProvider) (domain fqdn value : string)
  (w : World) :
  CleanUp c domain fqdn value w
  = match getHostedZone c fqdn w with
    | (Return zone, w1) =>
        let zoneName := dnsZone.Name (dnsZone.Zone zone) in
        let name := relativeName fqdn zoneName in
        match find (fun rec => dnsRecord.Name rec =? name)
                   (dnsZone.Records (dnsZone.Zone zone)) with
        | Some found =>
            (void (delete_outcome c zoneName name w1),
             exchanged (deleteRequest c zoneName name) w1)
        | None => (Return tt, w1)
        end
    | (Fail e, w1) => (Fail e, w1)
    | (Panic, w1) => (Panic, w1)
    end.
Proof.
  unfold CleanUp. unfold bind at 1.
  destruct (getHostedZone c fqdn w) as [[zone | e |] w1]; try reflexivity.
  rewrite findTxtRecord_find. cbv zeta.
  fold (relativeName fqdn (dnsZone.Name (dnsZone.Zone zone))).
  destruct (find _ _) as [found|]; cbn [snd is_errNoExistingRecord];
    [|reflexivity].
  unfold bind, delete_outcome.
  change (Marshal.of_dnsPostRecord _)
    with (deleteBody (dnsZone.Name (dnsZone.Zone zone))
            (relativeName fqdn (dnsZone.Name (dnsZone.Zone zone)))).
  rewrite makeRequest_pair.
  destruct (fst _); reflexivity.
Qed.

End Orchestration.

(** *** The requests of a run *)

Section Traces.

Context {collab : Collaborators}.

Import strings util strconv.

Lemma getHostedZone_sent (c : DNSProvider) (fqdn : string) (w : World) :
  sent (snd (getHostedZone c fqdn w))
  = (sent w ++ issued (getHostedZone c fqdn) w)%list.
Proof.
  rewrite getHostedZone_issued. unfold getHostedZone.
  destruct (FindZoneByFqdn fqdn (dns01Nameservers c)) as [e | authZone].
  - simpl. now rewrite app_nil_r.
  - unfold bind. rewrite makeRequest_pair.
    destruct (fst _) as [raw | e |]; try reflexivity.
    destruct (Unmarshal_dnsZone raw); reflexivity.
Qed.

Lemma Present_issued (c : DNSProvider) (domain fqdn value : string)
  (w : World) :
  issued (Present c domain fqdn value) w
  = (issued (getHostedZone c fqdn) w ++ Present_mutations c fqdn value w)%list.
Proof.
  pose proof (getHostedZone_sent c fqdn w) as Hs.
  unfold Present_mutations.
  unfold issued at 1. rewrite Present_run.
  destruct (getHostedZone c fqdn w) as [[zone | e |] w1]; simpl snd in Hs;
    cbv zeta.
  - destruct (find _ _) as [found|].
    + destruct (dnsRecord.Data found =? value).
      * simpl snd. rewrite Hs, skipn_length_app, app_nil_r. reflexivity.
      * destruct (delete_outcome _ _ _ w1); simpl; rewrite Hs;
          rewrite <- ?app_assoc; rewrite skipn_length_app; reflexivity.
    + simpl. rewrite Hs, <- app_assoc, skipn_length_app. reflexivity.
  - simpl snd. rewrite Hs, skipn_length_app, app_nil_r. reflexivity.
  - simpl snd. rewrite Hs, skipn_length_app, app_nil_r. reflexivity.
Qed.

Lemma CleanUp_issued (c : DNSProvider) (domain fqdn value : string)
  (w : World) :
  issued (CleanUp c domain fqdn value) w
  = (issued (getHostedZone c fqdn) w ++ CleanUp_mutations c fqdn w)%list.
Proof.
  pose proof (getHostedZone_sent c fqdn w) as Hs.
  unfold CleanUp_mutations.
  unfold issued at 1. rewrite CleanUp_run.
  destruct (getHostedZone c fqdn w) as [[zone | e |] w1]; simpl snd in Hs;
    cbv zeta.
  - destruct (find _ _) as [found|].
    + simpl. rewrite Hs, <- app_assoc, skipn_length_app. reflexivity.
    + simpl snd. rewrite Hs, skipn_length_app, app_nil_r. reflexivity.
  - simpl snd. rewrite Hs, skipn_length_app, app_nil_r. reflexivity.
  - simpl snd. rewrite Hs, skipn_length_app, app_nil_r. reflexivity.
Qed.

(** The fetch of the zone sends no request to a record endpoint. *)
Lemma getHostedZone_no_mutation (c : DNSProvider) (fqdn : string)
  (w : World) (req : Request.t) :
  In req (issued (getHostedZone c fqdn) w) -> is_mutating req = false.
Proof.
  rewrite getHostedZone_issued.
  destruct (FindZoneByFqdn fqdn (dns01Nameservers c)) as [e | authZone];
    simpl; [tauto|].
  intros [<- | []]. reflexivity.
Qed.

Lemma is_mutating_add (req : Request.t) :
  is_add req = true -> is_mutating req = true.
Proof. unfold is_mutating. intros ->. apply orb_true_r. Qed.

Lemma is_mutating_delete (req : Request.t) :
  is_delete req = true -> is_mutating req = true.
Proof. unfold is_mutating. now intros ->. Qed.

(** A create request of [Present] is the [addRequest] of the fetched zone. *)
Lemma Present_add_request (c : DNSProvider) (domain fqdn value : string)
  (w : World) (req : Request.t) :
  In req (issued (Present c domain fqdn value) w) ->
  is_add req = true ->
  exists zone w1,
    getHostedZone c fqdn w = (Return zone, w1)
    /\ req = addRequest c (dnsZone.Name (dnsZone.Zone zone))
               (relativeName fqdn (dnsZone.Name (dnsZone.Zone zone))) value.
Proof.
  rewrite Present_issued. intros Hin Hadd.
  apply in_app_or in Hin as [Hin | Hin].
  - apply getHostedZone_no_mutation in Hin.
    apply is_mutating_add in Hadd. congruence.
  - unfold Present_mutations in Hin.
    destruct (getHostedZone c fqdn w) as [[zone | e |] w1]; try contradiction.
    exists zone, w1. split; [reflexivity|]. cbv zeta in Hin.
    destruct (find _ _) as [found|].
    + destruct (dnsRecord.Data found =? value); [contradiction|].
      destruct Hin as [<- | Hin]; [discriminate Hadd|].
      destruct (succeeds _); [|contradiction].
      destruct Hin as [<- | []]. reflexivity.
    + destruct Hin as [<- | []]. reflexivity.
Qed.

(** A delete request of [Present] is the [deleteRequest] of the fetched
    zone. *)
Lemma Present_delete_request (c : DNSProvider) (domain fqdn value : string)
  (w : World) (req : Request.t) :
  In req (issued (Present c domain fqdn value) w) ->
  is_delete req = true ->
  exists zone w1,
    getHostedZone c fqdn w = (Return zone, w1)
    /\ req = deleteRequest c (dnsZone.Name (dnsZone.Zone zone))
               (relativeName fqdn (dnsZone.Name (dnsZone.Zone zone))).
Proof.
  rewrite Present_issued. intros Hin Hdel.
  apply in_app_or in Hin as [Hin | Hin].
  - apply getHostedZone_no_mutation in Hin.
    apply is_mutating_delete in Hdel. congruence.
  - unfold Present_mutations in Hin.
    destruct (getHostedZone c fqdn w) as [[zone | e |] w1]; try contradiction.
    exists zone, w1. split; [reflexivity|]. cbv zeta in Hin.
    destruct (find _ _) as [found|].
    + destruct (dnsRecord.Data found =? value); [contradiction|].
      destruct Hin as [<- | Hin]; [reflexivity|].
      destruct (succeeds _); [|contradiction].
      destruct Hin as [<- | []]. discriminate Hdel.
    + destruct Hin as [<- | []]. discriminate Hdel.
Qed.

(** A delete request of [CleanUp] is the [deleteRequest] of the fetched
    zone. *)
Lemma CleanUp_delete_request (c : DNSProvider) (domain fqdn value : string)
  (w : World) (req : Request.t) :
  In req (issued (CleanUp c domain fqdn value) w) ->
  is_delete req = true ->
  exists zone w1,
    getHostedZone c fqdn w = (Return zone, w1)
    /\ req = deleteRequest c (dnsZone.Name (dnsZone.Zone zone))
               (relativeName fqdn (dnsZone.Name (dnsZone.Zone zone))).
Proof.
  rewrite CleanUp_issued. intros Hin Hdel.
  apply in_app_or in Hin as [Hin | Hin].
  - apply getHostedZone_no_mutation in Hin.
    apply is_mutating_delete in Hdel. congruence.
  - unfold CleanUp_mutations in Hin.
    destruct (getHostedZone c fqdn w) as [[zone | e |] w1]; try contradiction.
    exists zone, w1. split; [reflexivity|]. cbv zeta in Hin.
    destruct (find _ _) as [found|]; [|contradiction].
    destruct Hin as [<- | []]. reflexivity.
Qed.

End Traces.

(** ** Properties of [Present] and [CleanUp] *)

Section Reconciliation.

Context {collab : Collaborators}.

Import strings util strconv.

(** C1, as amended.  When the first record of the fetched zone whose name is
    the derived relative name holds the value already, [Present] returns
    success in the world the fetch left, and the fetch is all it sent: no
    request went to a record endpoint.  Run again from that world, with the
    provider serving the same zone, it does the same. *)
Theorem Present_first_match_same_value_noop
  (c : DNSProvider) (domain fqdn value : string) (w w1 : World)
  (zone : dnsZone.t) (r : dnsRecord.t) :
  getHostedZone c fqdn w = (Return zone, w1) ->
  first_match (relativeName fqdn (dnsZone.Name (dnsZone.Zone zone)))
              (dnsZone.Records (dnsZone.Zone zone)) r ->
  dnsRecord.Data r = value ->
  Present c domain fqdn value w = (Return tt, w1)
  /\ issued (Present c domain fqdn value) w = issued (getHostedZone c fqdn) w
  /\ filter is_mutating (issued (Present c domain fqdn value) w) = []
  /\ forall w2,
       getHostedZone c fqdn w1 = (Return zone, w2) ->
       Present c domain fqdn value w1 = (Return tt, w2)
       /\ filter is_mutating (issued (Present c domain fqdn value) w1) = [].
Proof.
  intros Hfetch Hfirst Hdata.
  apply find_first_match in Hfirst.
  assert (Hrun : forall w0 w0',
    getHostedZone c fqdn w0 = (Return zone, w0') ->
    Present c domain fqdn value w0 = (Return tt, w0')
    /\ issued (Present c domain fqdn value) w0
       = issued (getHostedZone c fqdn) w0).
  { intros w0 w0' H0. split.
    - rewrite Present_run, H0. cbv zeta. rewrite Hfirst.
      now rewrite (proj2 (String.eqb_eq _ _) Hdata).
    - rewrite Present_issued. unfold Present_mutations.
      rewrite H0. cbv zeta. rewrite Hfirst.
      rewrite (proj2 (String.eqb_eq _ _) Hdata). apply app_nil_r. }
  assert (Hquiet : forall w0 w0',
    getHostedZone c fqdn w0 = (Return zone, w0') ->
    filter is_mutating (issued (Present c domain fqdn value) w0) = []).
  { intros w0 w0' H0. destruct (Hrun w0 w0' H0) as [_ ->].
    rewrite getHostedZone_issued.
    destruct (FindZoneByFqdn fqdn (dns01Nameservers c)); reflexivity. }
  destruct (Hrun w w1 Hfetch) as [H1 H2].
  repeat split; eauto.
  apply (Hrun w1 w2). assumption.
Qed.

(** C2, as amended.  When the first record of the fetched zone whose name is
    the derived relative name holds another value, [Present] sends the
    fetch, then one delete request to [/dns/zones/records/delete] and, if
    the delete succeeded, one create request to [/dns/zones/records/add]
    after it, and nothing else; it returns success exactly when both
    succeeded.  When the delete fails, [Present] returns the error of the
    delete in the world the delete left; when it succeeds, the result of
    [Present] is the result of the create. *)
Theorem Present_first_match_other_value_replaces
  (c : DNSProvider) (domain fqdn value : string) (w w1 : World)
  (zone : dnsZone.t) (r : dnsRecord.t) :
  getHostedZone c fqdn w = (Return zone, w1) ->
  first_match (relativeName fqdn (dnsZone.Name (dnsZone.Zone zone)))
              (dnsZone.Records (dnsZone.Zone zone)) r ->
  dnsRecord.Data r <> value ->
  let zoneName := dnsZone.Name (dnsZone.Zone zone) in
  let name := relativeName fqdn zoneName in
  let deleted := delete_outcome c zoneName name w1 in
  let added :=
    add_outcome c zoneName name value
      (exchanged (deleteRequest c zoneName name) w1) in
  issued (Present c domain fqdn value) w
  = (issued (getHostedZone c fqdn) w
     ++ deleteRequest c zoneName name
     :: (if succeeds deleted then [addRequest c zoneName name value] else []))
    %list
  /\ Request.URL (deleteRequest c zoneName name)
     = APIURL ++ "/dns/zones/records/delete"
  /\ Request.URL (addRequest c zoneName name value)
     = APIURL ++ "/dns/zones/records/add"
  /\ List.length (filter is_delete (issued (Present c domain fqdn value) w))
     = 1
  /\ List.length (filter is_add (issued (Present c domain fqdn value) w))
     = (if succeeds deleted then 1 else 0)
  /\ (fst (Present c domain fqdn value w) = Return tt
      <-> succeeds deleted = true /\ succeeds added = true)
  /\ (forall e,
        deleted = Fail e ->
        Present c domain fqdn value w
        = (Fail e, exchanged (deleteRequest c zoneName name) w1))
  /\ (succeeds deleted = true ->
      Present c domain fqdn value w
      = (void added,
         exchanged (addRequest c zoneName name value)
           (exchanged (deleteRequest c zoneName name) w1))).
Proof.
  intros Hfetch Hfirst Hdata zoneName name deleted added.
  apply find_first_match in Hfirst. fold zoneName name in Hfirst.
  apply String.eqb_neq in Hdata.
  assert (Hissued : issued (Present c domain fqdn value) w
    = (issued (getHostedZone c fqdn) w
       ++ deleteRequest c zoneName name
       :: (if succeeds deleted then [addRequest c zoneName name value]
           else []))%list).
  { rewrite Present_issued. unfold Present_mutations.
    rewrite Hfetch. cbv zeta. fold zoneName name.
    now rewrite Hfirst, Hdata. }
  split; [exact Hissued|].
  split; [reflexivity|]. split; [reflexivity|].
  rewrite Hissued, getHostedZone_issued.
  split; [|split].
  - destruct (FindZoneByFqdn fqdn (dns01Nameservers c));
      destruct (succeeds deleted); reflexivity.
  - destruct (FindZoneByFqdn fqdn (dns01Nameservers c));
      destruct (succeeds deleted); reflexivity.
  - rewrite !Present_run, Hfetch. cbv zeta. fold zoneName name.
    rewrite Hfirst, Hdata. fold deleted added.
    destruct deleted; simpl.
    + rewrite succeeds_void.
      split; [tauto|]. split; [discriminate | reflexivity].
    + split; [split; [discriminate | intros [H _]; discriminate]|].
      split; [intros e0 [= <-]; reflexivity | discriminate].
    + split; [split; [discriminate | intros [H _]; discriminate]|].
      split; discriminate.
Qed.

(** C4.  When no record of the fetched zone has the derived relative name,
    [CleanUp] returns success and sends nothing but the fetch: no request
    goes to a record endpoint. *)
Theorem CleanUp_no_record_noop
  (c : DNSProvider) (domain fqdn value : string) (w w1 : World)
  (zone : dnsZone.t) :
  getHostedZone c fqdn w = (Return zone, w1) ->
  no_match (relativeName fqdn (dnsZone.Name (dnsZone.Zone zone)))
           (dnsZone.Records (dnsZone.Zone zone)) ->
  CleanUp c domain fqdn value w = (Return tt, w1)
  /\ issued (CleanUp c domain fqdn value) w = issued (getHostedZone c fqdn) w
  /\ filter is_mutating (issued (CleanUp c domain fqdn value) w) = [].
Proof.
  intros Hfetch Hnone. apply find_no_match in Hnone.
  assert (Hissued : issued (CleanUp c domain fqdn value) w
                    = issued (getHostedZone c fqdn) w).
  { rewrite CleanUp_issued. unfold CleanUp_mutations.
    rewrite Hfetch. cbv zeta. rewrite Hnone. apply app_nil_r. }
  split; [|split].
  - rewrite CleanUp_run, Hfetch. cbv zeta. now rewrite Hnone.
  - exact Hissued.
  - rewrite Hissued, getHostedZone_issued.
    destruct (FindZoneByFqdn fqdn (dns01Nameservers c)); reflexivity.
Qed.

End Reconciliation.

Section Requests.

Context {collab : Collaborators}.

Import strings util strconv.

Lemma wire_addBody (zoneName name value : string) :
  Encoder.wire (addBody zoneName name value)
  = JObject
      [("zone", JString (Encoder.coerce zoneName));
       ("records",
        JArray
          [JObject
             [("name", JString (Encoder.coerce name));
              ("ttl", JString "7200");
              ("type", JString "TXT");
              ("data", JString (Encoder.coerce value))]])].
Proof. reflexivity. Qed.

(** C3, as amended.  Every create request [Present] sends is a POST to
    [/dns/zones/records/add]; the document it carries on the wire holds the
    name of the fetched zone and one record made of the derived relative
    name, the TTL ["7200"], the type ["TXT"] and the caller's value as
    data, each string as the encoder writes it: a byte that is not valid
    UTF-8 is replaced by U+FFFD, and a zone name, a relative name and a
    value that are valid UTF-8 are carried as they are.  In particular,
    when the fetched zone is [example.com] and holds no record named
    [_acme-challenge], the call for [_acme-challenge.example.com.] and
    [abc123] sends the fetch and then one add of [_acme-challenge] with
    the data [abc123], and its result is the result of that add. *)
Theorem Present_create_request
  (c : DNSProvider) (domain fqdn value : string) (w : World) :
  (forall req,
     In req (issued (Present c domain fqdn value) w) ->
     is_add req = true ->
     exists zone w1,
       getHostedZone c fqdn w = (Return zone, w1)
       /\ Request.Method req = "POST"
       /\ Request.URL req = APIURL ++ "/dns/zones/records/add"
       /\ let zoneName := dnsZone.Name (dnsZone.Zone zone) in
          let name := relativeName fqdn zoneName in
          Encoder.wire (Request.Body req)
          = JObject
              [("zone", JString (Encoder.coerce zoneName));
               ("records",
                JArray
                  [JObject
                     [("name", JString (Encoder.coerce name));
                      ("ttl", JString "7200");
                      ("type", JString "TXT");
                      ("data", JString (Encoder.coerce value))]])]
          /\ (valid_utf8 zoneName ->
              valid_utf8 name ->
              valid_utf8 value ->
              Encoder.wire (Request.Body req)
              = JObject
                  [("zone", JString zoneName);
                   ("records",
                    JArray
                      [JObject
                         [("name", JString name);
                          ("ttl", JString "7200");
                          ("type", JString "TXT");
                          ("data", JString value)]])]))
  /\ (forall zone w1,
        fqdn = "_acme-challenge.example.com." ->
        value = "abc123" ->
        getHostedZone c fqdn w = (Return zone, w1) ->
        dnsZone.Name (dnsZone.Zone zone) = "example.com" ->
        no_match "_acme-challenge" (dnsZone.Records (dnsZone.Zone zone)) ->
        exists authZone create,
          issued (Present c domain fqdn value) w
          = [request c "GET" "/dns/zones/show"
               (JObject [("zone", JString (UnFqdn authZone))]);
             create]
          /\ Request.Method create = "POST"
          /\ Request.URL create = APIURL ++ "/dns/zones/records/add"
          /\ Encoder.wire (Request.Body create)
             = JObject
                 [("zone", JString "example.com");
                  ("records",
                   JArray
                     [JObject
                        [("name", JString "_acme-challenge");
                         ("ttl", JString "7200");
                         ("type", JString "TXT");
                         ("data", JString "abc123")]])]
          /\ Present c domain fqdn value w
             = (void (add_outcome c "example.com" "_acme-challenge" "abc123"
                        w1),
                exchanged create w1)).
Proof.
  split.
  - intros req Hin Hadd.
    destruct (Present_add_request c domain fqdn value w req Hin Hadd)
      as (zone & w1 & Hfetch & ->).
    exists zone, w1. split; [exact Hfetch|].
    split; [reflexivity|]. split; [reflexivity|].
    cbv zeta. cbn [addRequest request Request.Body].
    rewrite wire_addBody. split; [reflexivity|].
    intros Hz Hn Hv. unfold valid_utf8 in *. now rewrite Hz, Hn, Hv.
  - intros zone w1 -> -> Hfetch Hname Hnone.
    destruct (getHostedZone_Return _ _ _ _ _ Hfetch) as (authZone & Hz & _).
    apply find_no_match in Hnone.
    assert (Hrel : relativeName "_acme-challenge.example.com." "example.com"
                   = "_acme-challenge") by reflexivity.
    exists authZone,
      (addRequest c "example.com" "_acme-challenge" "abc123").
    split; [|split; [reflexivity|split; [reflexivity|split; [reflexivity|]]]].
    + rewrite Present_issued, getHostedZone_issued, Hz.
      unfold Present_mutations. rewrite Hfetch. cbv zeta.
      rewrite Hname, Hrel, Hnone. reflexivity.
    + rewrite Present_run, Hfetch. cbv zeta.
      rewrite Hname, Hrel, Hnone. reflexivity.
Qed.

(** C7, as amended.  Every delete request [Present] or [CleanUp] sends has
    the method DELETE and the path [/dns/zones/records/delete]; its body
    holds the name of the fetched zone and one record made of the derived
    relative name and of an empty type and empty data. *)
Theorem delete_request_shape
  (c : DNSProvider) (domain fqdn value : string) (w : World)
  (req : Request.t) :
  In req (issued (Present c domain fqdn value) w)
  \/ In req (issued (CleanUp c domain fqdn value) w) ->
  is_delete req = true ->
  exists zone w1,
    getHostedZone c fqdn w = (Return zone, w1)
    /\ Request.Method req = "DELETE"
    /\ Request.URL req = APIURL ++ "/dns/zones/records/delete"
    /\ Request.Body req
       = JObject
           [("zone", JString (dnsZone.Name (dnsZone.Zone zone)));
            ("records",
             JArray
               [JObject
                  [("name",
                    JString
                      (relativeName fqdn (dnsZone.Name (dnsZone.Zone zone))));
                   ("type", JString "");
                   ("data", JString "")]])].
Proof.
  intros [Hin | Hin] Hdel.
  - destruct (Present_delete_request c domain fqdn value w req Hin Hdel)
      as (zone & w1 & Hfetch & ->).
    exists zone, w1. repeat split. exact Hfetch.
  - destruct (CleanUp_delete_request c domain fqdn value w req Hin Hdel)
      as (zone & w1 & Hfetch & ->).
    exists zone, w1. repeat split. exact Hfetch.
Qed.

(** C5.  The relative name the program derives is the name obtained by
    first removing the trailing dot of the fqdn and then stripping the
    suffix made of a dot and the zone's name; a name [label.zone.] gives
    [label], and [_acme-challenge.example.com.] in [example.com] gives
    [_acme-challenge].  It is the name [findTxtRecord] looks for. *)
Theorem relativeName_derivation :
  (forall fqdn zoneName name,
     derived_name fqdn zoneName name <-> name = relativeName fqdn zoneName)
  /\ (forall label zoneName,
        relativeName (label ++ "." ++ zoneName ++ ".") zoneName = label)
  /\ relativeName "_acme-challenge.example.com." "example.com"
     = "_acme-challenge"
  /\ (forall c zone fqdn,
        fst (findTxtRecord c zone fqdn)
        = find (fun rec => dnsRecord.Name rec
                           =? relativeName fqdn
                                (dnsZone.Name (dnsZone.Zone zone)))
               (dnsZone.Records (dnsZone.Zone zone))).
Proof.
  split; [|split; [|split]].
  - intros fqdn zoneName name. split.
    + intros H. eapply derived_name_fun; eauto.
      apply derived_name_relativeName.
    + intros ->. apply derived_name_relativeName.
  - apply relativeName_in_zone.
  - reflexivity.
  - intros c zone fqdn. rewrite findTxtRecord_find.
    destruct (find _ _); reflexivity.
Qed.

(** C8.  [findTxtRecord] returns the first record of the zone whose name is
    the derived relative name, whatever its type and data, and none when no
    record has that name.  When there is such a record [CleanUp] sends the
    delete request for the name; the value it was given plays no part in
    what it does. *)
Theorem lookup_and_deletion_by_name
  (c : DNSProvider) (zone : dnsZone.t) (fqdn : string) :
  let zoneName := dnsZone.Name (dnsZone.Zone zone) in
  let name := relativeName fqdn zoneName in
  let records := dnsZone.Records (dnsZone.Zone zone) in
  (forall r,
     fst (findTxtRecord c zone fqdn) = Some r <-> first_match name records r)
  /\ (fst (findTxtRecord c zone fqdn) = None <-> no_match name records)
  /\ (forall domain value w w1 r,
        getHostedZone c fqdn w = (Return zone, w1) ->
        first_match name records r ->
        CleanUp c domain fqdn value w
        = (void (delete_outcome c zoneName name w1),
           exchanged (deleteRequest c zoneName name) w1)
        /\ issued (CleanUp c domain fqdn value) w
           = (issued (getHostedZone c fqdn) w
              ++ [deleteRequest c zoneName name])%list)
  /\ (forall domain domain' value value' w,
        CleanUp c domain fqdn value w = CleanUp c domain' fqdn value' w).
Proof.
  intros zoneName name records.
  assert (Hfind : fst (findTxtRecord c zone fqdn)
                  = find (fun rec => dnsRecord.Name rec =? name) records).
  { rewrite findTxtRecord_find. fold zoneName name records.
    destruct (find _ _); reflexivity. }
  split; [|split; [|split]].
  - intros r. rewrite Hfind. apply find_first_match.
  - rewrite Hfind. apply find_no_match.
  - intros domain value w w1 r Hfetch Hfirst.
    apply find_first_match in Hfirst. split.
    + rewrite CleanUp_run, Hfetch. cbv zeta.
      fold zoneName name records. now rewrite Hfirst.
    + rewrite CleanUp_issued. unfold CleanUp_mutations.
      rewrite Hfetch. cbv zeta. fold zoneName name records.
      now rewrite Hfirst.
  - intros domain domain' value value' w. now rewrite !CleanUp_run.
Qed.

(** C9.  [findTxtRecord] returns a record and a nil error, or no record and
    the error [errNoExistingRecord]; so the test of [Present] for an error
    that is not [errNoExistingRecord] is never true. *)
Theorem findTxtRecord_only_errNoExistingRecord
  (c : DNSProvider) (zone : dnsZone.t) (fqdn : string) :
  ((exists r, findTxtRecord c zone fqdn = (Some r, None))
   \/ findTxtRecord c zone fqdn = (None, Some errNoExistingRecord))
  /\ (forall e,
        snd (findTxtRecord c zone fqdn) = Some e -> e = errNoExistingRecord)
  /\ is_real_error (snd (findTxtRecord c zone fqdn)) = false.
Proof.
  rewrite findTxtRecord_find.
  destruct (find _ _) as [r|]; simpl.
  - split; [left; eauto | split; [discriminate | reflexivity]].
  - split; [right; reflexivity | split; [congruence | reflexivity]].
Qed.

End Requests.

(** ** The envelope *)

Section Envelope.

Context {collab : Collaborators}.

Import strings util strconv.

Lemma contains_refl (s : string) : contains s s.
Proof. exists "", "". simpl. now rewrite append_nil_r. Qed.

Lemma contains_append_l (p s sub : string) :
  contains s sub -> contains (p ++ s) sub.
Proof.
  intros (a & b & ->). exists (p ++ a), b. now rewrite append_assoc.
Qed.

Lemma contains_append_r (s q sub : string) :
  contains s sub -> contains (s ++ q) sub.
Proof.
  intros (a & b & ->). exists a, (b ++ q). now rewrite !append_assoc.
Qed.

Lemma Sprintf_Error_contains (m : APIMessage.t) :
  contains (Sprintf_Error m) (Itoa (APIMessage.Code m))
  /\ contains (Sprintf_Error m) (APIMessage.Message m).
Proof.
  unfold Sprintf_Error. split.
  - apply contains_append_l, contains_append_l, contains_append_r,
      contains_refl.
  - do 4 apply contains_append_l. apply contains_refl.
Qed.

Lemma error_lines_contains (messages : list APIMessage.t)
  (m : APIMessage.t) :
  In m messages -> contains (error_lines messages) (Sprintf_Error m).
Proof.
  induction messages as [|x rest IH]; cbn [error_lines In]; [tauto|].
  intros [-> | Hin].
  - apply contains_append_r, contains_refl.
  - apply contains_append_l, IH, Hin.
Qed.

Lemma contains_trans (s t u : string) :
  contains s t -> contains t u -> contains s u.
Proof.
  intros (a & b & ->) Htu.
  apply contains_append_l, contains_append_r, Htu.
Qed.

Lemma range_Errors_messages (messages : list APIMessage.t)
  (errStr : string) :
  range_Errors (map Some messages) errStr
  = Some (errStr ++ error_lines messages).
Proof.
  revert errStr. induction messages as [|m rest IH]; intros errStr; simpl.
  - now rewrite append_nil_r.
  - now rewrite IH, append_assoc.
Qed.

Lemma range_Errors_nil_entry (errors : list (option APIMessage.t))
  (errStr : string) :
  In None errors -> range_Errors errors errStr = None.
Proof.
  revert errStr. induction errors as [|[m|] rest IH]; intros errStr;
    simpl; [tauto | | reflexivity].
  intros [H | H]; [discriminate | apply IH, H].
Qed.

Lemma all_messages (errors : list (option APIMessage.t)) :
  ~ In None errors -> exists messages, errors = map Some messages.
Proof.
  induction errors as [|[m|] rest IH]; simpl; intros H.
  - exists []. reflexivity.
  - destruct IH as [messages ->]; [tauto|].
    exists (m :: messages). reflexivity.
  - tauto.
Qed.

(** What [makeRequest] makes of a decoded envelope: the payload when the
    status is ["success"]; otherwise an error, whose text is ["API error"]
    when the envelope has no error message and holds the code and the text
    of every message when it has some, none of them nil; and a panic when
    an entry of the error list is nil. *)
Lemma makeRequest_envelope (c : DNSProvider) (method uri : string)
  (body : json) (w : World) (r : APIResponse.t RawMessage) :
  snd (Do (remote w) (request c method uri body)) = Envelope r ->
  let errors := APIResponse.Errors (APIResponse.Messages r) in
  let result := fst (makeRequest c method uri body w) in
  (APIResponse.Status r = "success" -> result = Return (APIResponse.Data r))
  /\ (APIResponse.Status r <> "success" ->
      errors = [] -> result = Fail (errorString "API error"))
  /\ (APIResponse.Status r <> "success" ->
      errors <> [] ->
      ~ In None errors ->
      exists text,
        result = Fail (errorString text)
        /\ forall m,
             In (Some m) errors ->
             contains text (Itoa (APIMessage.Code m))
             /\ contains text (APIMessage.Message m))
  /\ (APIResponse.Status r <> "success" ->
      In None errors -> result = Panic).
Proof.
  intros Hdo errors result. subst result.
  unfold makeRequest. fold (request c method uri body).
  destruct (Do (remote w) (request c method uri body)) as [s reply].
  simpl in Hdo. subst reply. fold errors.
  split; [|split; [|split]].
  - intros ->. reflexivity.
  - intros Hs He. apply String.eqb_neq in Hs. rewrite Hs, He. reflexivity.
  - intros Hs Hne Hnil. apply String.eqb_neq in Hs. rewrite Hs.
    destruct (all_messages errors Hnil) as [messages Hm].
    rewrite Hm in *. rewrite range_Errors_messages.
    destruct messages as [|m0 rest]; [contradiction|].
    eexists. split; [reflexivity|].
    intros m Hin. apply in_map_iff in Hin as (m' & [= ->] & Hin).
    apply error_lines_contains in Hin.
    destruct (Sprintf_Error_contains m) as [Hcode Htext].
    split; do 2 apply contains_append_l;
      (eapply contains_trans; [exact Hin|]); assumption.
  - intros Hs Hin. apply String.eqb_neq in Hs. rewrite Hs.
    rewrite (range_Errors_nil_entry errors "" Hin).
    destruct errors; [contradiction | reflexivity].
Qed.

End Envelope.

Section OutsideZone.

Context {collab : Collaborators}.

Import strings util strconv.


End OutsideZone.

(** ** Runs on the in-memory provider *)

Section Examples.

Import strings util strconv.
Import InMemory.

Lemma Present_first_match_same_value_noop_witness :
  getHostedZone provider Inputs.fqdn Inputs.fresh
  = (Return (Inputs.zone_of Inputs.fresh),
     exchanged Inputs.show Inputs.fresh)
  /\ Present provider "example.com" Inputs.fqdn "abc123" Inputs.fresh
     = (Return tt, exchanged Inputs.show Inputs.fresh)
  /\ filter is_mutating
       (issued (Present provider "example.com" Inputs.fqdn "abc123")
               Inputs.fresh) = [].
Proof.
  assert (Hfetch : getHostedZone provider Inputs.fqdn Inputs.fresh
                   = (Return (Inputs.zone_of Inputs.fresh),
                      exchanged Inputs.show Inputs.fresh))
    by (vm_compute; reflexivity).
  destruct (Present_first_match_same_value_noop provider "example.com"
              Inputs.fqdn "abc123" Inputs.fresh _ _
              (txt "_acme-challenge" "abc123") Hfetch)
    as (H1 & _ & H3 & _).
  - exists [], []. vm_compute. repeat split. constructor.
  - reflexivity.
  - repeat split; assumption.
Defined.

(** C1 fails as written: the zone holds a record with the name and the
    value, but after a record of the same name with an old value.
    [Present] finds the old one, and deletes and creates. *)
Lemma Present_any_match_same_value_counterexample :
  issued (Present provider "example.com" Inputs.fqdn "abc123")
         Inputs.stale_then_fresh
  = [Inputs.show; Inputs.del; Inputs.add]
  /\ ~ Present_any_match_same_value_noop.
Proof.
  split; [vm_compute; reflexivity|].
  intros H.
  destruct (H collaborators provider "example.com" Inputs.fqdn "abc123"
              Inputs.stale_then_fresh
              (exchanged Inputs.show Inputs.stale_then_fresh)
              (Inputs.zone_of Inputs.stale_then_fresh)) as [_ Hq].
  - vm_compute; reflexivity.
  - exists (txt "_acme-challenge" "abc123").
    vm_compute. repeat split. right; left; reflexivity.
  - vm_compute in Hq. discriminate Hq.
Qed.

Lemma Present_first_match_other_value_replaces_witness :
  issued (Present provider "example.com" Inputs.fqdn "abc123") Inputs.stale
  = [Inputs.show; Inputs.del; Inputs.add]
  /\ (fst (Present provider "example.com" Inputs.fqdn "abc123" Inputs.stale)
      = Return tt
      <-> succeeds (delete_outcome provider "example.com" "_acme-challenge"
                      (exchanged Inputs.show Inputs.stale)) = true
          /\ succeeds (add_outcome provider "example.com" "_acme-challenge"
                         "abc123"
                         (exchanged Inputs.del (exchanged Inputs.show Inputs.stale)))
             = true).
Proof.
  assert (Hfetch : getHostedZone provider Inputs.fqdn Inputs.stale
                   = (Return (Inputs.zone_of Inputs.stale),
                      exchanged Inputs.show Inputs.stale))
    by (vm_compute; reflexivity).
  destruct (Present_first_match_other_value_replaces provider "example.com"
              Inputs.fqdn "abc123" Inputs.stale _ _
              (txt "_acme-challenge" "old") Hfetch)
    as (H1 & _ & _ & _ & _ & H6 & _).
  - exists [], []. vm_compute. repeat split. constructor.
  - discriminate.
  - split; [|exact H6]. rewrite H1. vm_compute. reflexivity.
Defined.

(** C2 fails as written, twice.  When the record with the other value comes
    after a record of the same name that holds the value, [Present] sends
    nothing but the fetch.  When the provider refuses the delete, [Present]
    stops after it: no create is sent. *)
Lemma Present_any_match_other_value_counterexample :
  issued (Present provider "example.com" Inputs.fqdn "abc123")
         Inputs.fresh_then_stale
  = [Inputs.show]
  /\ (issued (Present provider "example.com" Inputs.fqdn "abc123")
             Inputs.stale_no_delete
      = [Inputs.show; Inputs.del]
      /\ fst (Present provider "example.com" Inputs.fqdn "abc123"
                Inputs.stale_no_delete)
         = Fail (errorString
                   ("API Error " ++ newline ++ tab
                    ++ " Error: 1001: invalid zone")))
  /\ ~ Present_any_match_other_value_replaces.
Proof.
  split; [vm_compute; reflexivity|].
  split; [split; vm_compute; reflexivity|].
  intros H.
  assert (Hq := H collaborators provider "example.com" Inputs.fqdn "abc123"
              Inputs.fresh_then_stale
              (exchanged Inputs.show Inputs.fresh_then_stale)
              (Inputs.zone_of Inputs.fresh_then_stale)).
  lapply Hq; [clear Hq; intros Hq | vm_compute; reflexivity].
  lapply Hq; [clear Hq; intros Hq |].
  - vm_compute in Hq. discriminate Hq.
  - exists (txt "_acme-challenge" "old"). split; [|split].
    + right; left; reflexivity.
    + vm_compute; reflexivity.
    + discriminate.
Qed.

Lemma CleanUp_no_record_noop_witness :
  CleanUp provider "example.com" Inputs.fqdn "abc123" Inputs.empty
  = (Return tt, exchanged Inputs.show Inputs.empty)
  /\ filter is_mutating
       (issued (CleanUp provider "example.com" Inputs.fqdn "abc123")
               Inputs.empty) = [].
Proof.
  assert (Hfetch : getHostedZone provider Inputs.fqdn Inputs.empty
                   = (Return (Inputs.zone_of Inputs.empty),
                      exchanged Inputs.show Inputs.empty))
    by (vm_compute; reflexivity).
  destruct (CleanUp_no_record_noop provider "example.com" Inputs.fqdn
              "abc123" Inputs.empty _ _ Hfetch) as (H1 & _ & H3).
  - constructor.
  - split; assumption.
Defined.

Lemma Present_create_request_witness :
  exists authZone create,
    issued (Present provider "example.com" Inputs.fqdn "abc123")
           Inputs.fresh_elsewhere
    = [request provider "GET" "/dns/zones/show"
         (JObject [("zone", JString (UnFqdn authZone))]);
       create]
    /\ Request.Method create = "POST"
    /\ Request.URL create = APIURL ++ "/dns/zones/records/add"
    /\ Encoder.wire (Request.Body create)
       = JObject
           [("zone", JString "example.com");
            ("records",
             JArray
               [JObject
                  [("name", JString "_acme-challenge");
                   ("ttl", JString "7200");
                   ("type", JString "TXT");
                   ("data", JString "abc123")]])]
    /\ Present provider "example.com" Inputs.fqdn "abc123"
         Inputs.fresh_elsewhere
       = (void (add_outcome provider "example.com" "_acme-challenge"
                  "abc123"
                  (exchanged Inputs.show Inputs.fresh_elsewhere)),
          exchanged create (exchanged Inputs.show Inputs.fresh_elsewhere)).
Proof.
  destruct (Present_create_request provider "example.com" Inputs.fqdn
              "abc123" Inputs.fresh_elsewhere) as [_ Hscenario].
  apply (Hscenario (Inputs.zone_of Inputs.fresh_elsewhere)
           (exchanged Inputs.show Inputs.fresh_elsewhere)).
  - reflexivity.
  - reflexivity.
  - vm_compute. reflexivity.
  - reflexivity.
  - repeat constructor; discriminate.
Defined.

(** C3 fails as written: for the value made of the byte [0xFF], which is
    not valid UTF-8, the record of the create request holds U+FFFD on the
    wire, not the value the caller gave. *)
Lemma create_requests_carry_value_counterexample :
  map (fun req => Encoder.wire (Request.Body req))
      (filter is_add
         (issued (Present provider "example.com" Inputs.fqdn Bytes.xff)
                 Inputs.empty))
  = [JObject
       [("zone", JString "example.com");
        ("records",
         JArray
           [JObject
              [("name", JString "_acme-challenge");
               ("ttl", JString "7200");
               ("type", JString "TXT");
               ("data", JString utf8.RuneError)]])]]
  /\ utf8.RuneError <> Bytes.xff
  /\ ~ create_requests_carry_value_as_given.
Proof.
  split; [vm_compute; reflexivity|]. split; [discriminate|].
  intros H.
  destruct (H collaborators provider "example.com" Inputs.fqdn Bytes.xff
              Inputs.empty
              (addRequest provider "example.com" "_acme-challenge"
                 Bytes.xff))
    as (zoneName & name & Hwire).
  - vm_compute. auto.
  - reflexivity.
  - vm_compute in Hwire. discriminate Hwire.
Qed.

Lemma delete_request_shape_witness :
  In Inputs.del (issued (CleanUp provider "example.com" Inputs.fqdn "abc123")
                 Inputs.stale)
  /\ is_delete Inputs.del = true
  /\ exists zone w1,
       getHostedZone provider Inputs.fqdn Inputs.stale = (Return zone, w1)
       /\ Request.Method Inputs.del = "DELETE"
       /\ Request.URL Inputs.del = APIURL ++ "/dns/zones/records/delete"
       /\ Request.Body Inputs.del
          = JObject
              [("zone", JString (dnsZone.Name (dnsZone.Zone zone)));
               ("records",
                JArray
                  [JObject
                     [("name",
                       JString
                         (relativeName Inputs.fqdn
                            (dnsZone.Name (dnsZone.Zone zone))));
                      ("type", JString "");
                      ("data", JString "")]])].
Proof.
  assert (Hin : In Inputs.del (issued (CleanUp provider "example.com" Inputs.fqdn
                                  "abc123") Inputs.stale))
    by (vm_compute; auto).
  split; [exact Hin|]. split; [reflexivity|].
  exact (delete_request_shape provider "example.com" Inputs.fqdn "abc123"
           Inputs.stale Inputs.del (or_intror Hin) eq_refl).
Defined.

(** C7 fails as written: the delete request [CleanUp] sends for a stale
    record has the method DELETE, not POST, and its record has a type and
    data, both empty, besides its name. *)
Lemma delete_requests_POST_name_only_counterexample :
  issued (CleanUp provider "example.com" Inputs.fqdn "abc123") Inputs.stale
  = [Inputs.show; Inputs.del]
  /\ Request.Method Inputs.del = "DELETE"
  /\ Request.Body Inputs.del
     = JObject
         [("zone", JString "example.com");
          ("records",
           JArray
             [JObject
                [("name", JString "_acme-challenge");
                 ("type", JString "");
                 ("data", JString "")]])]
  /\ ~ delete_requests_POST_name_only.
Proof.
  split; [vm_compute; reflexivity|].
  split; [reflexivity|]. split; [reflexivity|].
  intros H.
  destruct (H collaborators provider "example.com" Inputs.fqdn "abc123"
              Inputs.stale Inputs.del) as [Hmethod _].
  - right. vm_compute. auto.
  - reflexivity.
  - discriminate Hmethod.
Qed.

Lemma relativeName_derivation_witness :
  derived_name "_acme-challenge.example.com." "example.com"
    "_acme-challenge".
Proof.
  destruct relativeName_derivation
    as (Hiff & _ & Hexample & _).
  apply Hiff. symmetry. exact Hexample.
Defined.

Lemma lookup_and_deletion_by_name_witness :
  fst (findTxtRecord provider (Inputs.zone_of Inputs.stale_then_fresh)
         Inputs.fqdn)
  = Some (txt "_acme-challenge" "old")
  /\ CleanUp provider "example.com" Inputs.fqdn "abc123"
       Inputs.stale_then_fresh
     = CleanUp provider "example.org" Inputs.fqdn "other"
         Inputs.stale_then_fresh.
Proof.
  destruct (lookup_and_deletion_by_name provider
              (Inputs.zone_of Inputs.stale_then_fresh) Inputs.fqdn)
    as (Hfound & _ & _ & Hvalue).
  split.
  - apply Hfound.
    exists [], [txt "_acme-challenge" "abc123"].
    vm_compute. repeat split. constructor.
  - apply Hvalue.
Defined.

Lemma findTxtRecord_only_errNoExistingRecord_witness :
  snd (findTxtRecord provider (Inputs.zone_of Inputs.empty) Inputs.fqdn)
  = Some errNoExistingRecord.
Proof.
  destruct (findTxtRecord_only_errNoExistingRecord provider
              (Inputs.zone_of Inputs.empty) Inputs.fqdn) as (_ & Honly & _).
  destruct (snd (findTxtRecord provider (Inputs.zone_of Inputs.empty)
                   Inputs.fqdn)) as [e|] eqn:E.
  - f_equal. apply Honly. reflexivity.
  - vm_compute in E. discriminate E.
Defined.


(** C6.  The envelope the provider answers here has the status ["error"]
    and a list of errors with one nil entry.  [makeRequest] reads the code
    of that entry and panics: it returns no error, and [Present] and
    [CleanUp] panic with it.  It panics as well when a message comes
    before the nil entry: the code and the text of that message are lost. *)
Theorem makeRequest_nil_error_entry_panics :
  snd (Do (remote Inputs.null_error) Inputs.show)
  = envelope "error" [None] NoPayload
  /\ fst (makeRequest provider "GET" "/dns/zones/show"
            (JObject [("zone", JString "example.com")])
            Inputs.null_error)
     = Panic
  /\ fst (Present provider "example.com" Inputs.fqdn "abc123"
            Inputs.null_error)
     = Panic
  /\ fst (CleanUp provider "example.com" Inputs.fqdn "abc123"
            Inputs.null_error)
     = Panic
  /\ snd (Do (remote Inputs.null_after_error) Inputs.show)
     = envelope "error" [Some (APIMessage.mk 1001 "invalid zone"); None]
         NoPayload
  /\ fst (makeRequest provider "GET" "/dns/zones/show"
            (JObject [("zone", JString "example.com")])
            Inputs.null_after_error)
     = Panic.
Proof. vm_compute. repeat split. Qed.

End Examples.

(** ** Construction of the provider *)

Section Construction.

(** X1.  [NewDNSProviderCredentials] returns either a provider and no
    error, or no provider and an error, never both nor neither.  It fails
    exactly on the empty key, with the text [credentials missing]; the
    provider it returns holds the key and the nameservers it was given.
    [NewDNSProvider] does the same with the value of [LUMASERV_API_KEY]: a
    variable that is not set counts as an empty key. *)
Theorem NewDNSProvider_credentials
  (environ : string -> option string) (key : string)
  (dns01Nameservers : list string) :
  (NewDNSProviderCredentials key dns01Nameservers
   = (None, Some (errorString "credentials missing"))
   <-> key = "")
  /\ (NewDNSProviderCredentials key dns01Nameservers
      = (Some (mkDNSProvider dns01Nameservers key), None)
      <-> key <> "")
  /\ (environ "LUMASERV_API_KEY" = None ->
      NewDNSProvider environ dns01Nameservers
      = (None, Some (errorString "credentials missing")))
  /\ (environ "LUMASERV_API_KEY" = Some key ->
      NewDNSProvider environ dns01Nameservers
      = NewDNSProviderCredentials key dns01Nameservers).
Proof.
  unfold NewDNSProvider, NewDNSProviderCredentials, os.Getenv.
  split; [|split; [|split]].
  - destruct (String.eqb_spec key ""); split; congruence.
  - destruct (String.eqb_spec key ""); split; congruence.
  - intros ->. reflexivity.
  - intros ->. reflexivity.
Qed.

End Construction.

(** ** The results of [makeRequest] *)

Section Results.

Context {collab : Collaborators}.

Import strings util strconv.

Lemma range_Errors_None_inv (errors : list (option APIMessage.t))
  (errStr : string) :
  range_Errors errors errStr = None -> In None errors.
Proof.
  revert errStr. induction errors as [|[m|] rest IH]; intros errStr; simpl.
  - discriminate.
  - intros H. right. eapply IH, H.
  - auto.
Qed.

Lemma makeRequest_Panic_inv (c : DNSProvider) (method uri : string)
  (body : json) (w : World) :
  fst (makeRequest c method uri body w) = Panic ->
  exists r,
    snd (Do (remote w) (request c method uri body)) = Envelope r
    /\ APIResponse.Status r <> "success"
    /\ In None (APIResponse.Errors (APIResponse.Messages r)).
Proof.
  unfold makeRequest. fold (request c method uri body).
  destruct (Do (remote w) (request c method uri body)) as [s reply].
  destruct reply as [e | e | r]; simpl; try discriminate.
  destruct (String.eqb_spec (APIResponse.Status r) "success") as [E|N];
    simpl; [discriminate|].
  destruct (0 <? _)%nat; [|discriminate].
  destruct (range_Errors _ _) eqn:R; [discriminate|].
  intros _. exists r. repeat split; [exact N|].
  eapply range_Errors_None_inv, R.
Qed.

(** X2.  In each of the three calls of the package, [makeRequest] returns
    a payload exactly when the reply decodes to an envelope whose status is
    ["success"], and the payload is the data of that envelope: the messages
    of a successful envelope, errors included, play no part, and no other
    reply gives a payload. *)
Theorem makeRequest_payload_iff_success
  (c : DNSProvider) (call : endpoint) (body : json) (w : World)
  (raw : RawMessage) :
  fst (makeRequest c (method_of call) (uri_of call) body w) = Return raw
  <-> exists r,
        snd (Do (remote w) (request c (method_of call) (uri_of call) body))
        = Envelope r
        /\ APIResponse.Status r = "success"
        /\ APIResponse.Data r = raw.
Proof.
  generalize (method_of call) as method, (uri_of call) as uri.
  intros method uri.
  unfold makeRequest. fold (request c method uri body).
  destruct (Do (remote w) (request c method uri body)) as [s reply].
  destruct reply as [e | e | r]; simpl.
  - split; [discriminate | intros (r & H & _); discriminate].
  - split; [discriminate | intros (r & H & _); discriminate].
  - destruct (String.eqb_spec (APIResponse.Status r) "success") as [E|N];
      simpl.
    + split.
      * intros [= <-]. exists r. auto.
      * intros (r' & [= <-] & _ & <-). reflexivity.
    + split.
      * destruct (0 <? _)%nat; [|discriminate].
        destruct (range_Errors _ _); discriminate.
      * intros (r' & [= <-] & E & _). contradiction.
Qed.

(** X4.  In each of the three calls of the package, for an envelope whose
    status is not ["success"] and whose errors are the messages
    [m1, ..., mn], [n > 0], the error [makeRequest] returns has the text
    [API Error], a space and a newline, followed by one piece per message,
    in the order of the list and with nothing between the pieces: a tab,
    [ Error: ], the code in decimal, [: ] and the text of the message.  The
    warnings and the data of the envelope play no part. *)
Theorem makeRequest_error_text
  (c : DNSProvider) (call : endpoint) (body : json) (w : World)
  (r : APIResponse.t RawMessage) (first : APIMessage.t)
  (others : list APIMessage.t) :
  snd (Do (remote w) (request c (method_of call) (uri_of call) body))
  = Envelope r ->
  APIResponse.Status r <> "success" ->
  APIResponse.Errors (APIResponse.Messages r)
  = map Some (first :: others) ->
  fst (makeRequest c (method_of call) (uri_of call) body w)
  = Fail (errorString
            ("API Error " ++ newline
             ++ String.concat ""
                  (map (fun m =>
                          tab ++ " Error: " ++ Itoa (APIMessage.Code m)
                          ++ ": " ++ APIMessage.Message m)
                       (first :: others)))).
Proof.
  generalize (method_of call) as method, (uri_of call) as uri.
  intros method uri Hdo Hs He.
  assert (Hc : forall messages,
    error_lines messages = String.concat "" (map Sprintf_Error messages)).
  { induction messages as [|m rest IH]; [reflexivity|].
    cbn [error_lines map]. rewrite IH.
    destruct rest as [|m' rest]; [|reflexivity].
    simpl. now rewrite append_nil_r. }
  unfold makeRequest. fold (request c method uri body).
  destruct (Do (remote w) (request c method uri body)) as [s reply].
  simpl in Hdo. subst reply.
  apply String.eqb_neq in Hs. rewrite Hs, He.
  rewrite range_Errors_messages, Hc.
  reflexivity.
Qed.

(** X5.  In each of the three calls of the package, [makeRequest] panics
    exactly when the reply decodes to an envelope whose status is not
    ["success"] and whose list of errors holds a nil entry. *)
Theorem makeRequest_panics_exactly
  (c : DNSProvider) (call : endpoint) (body : json) (w : World) :
  fst (makeRequest c (method_of call) (uri_of call) body w) = Panic
  <-> exists r,
        snd (Do (remote w) (request c (method_of call) (uri_of call) body))
        = Envelope r
        /\ APIResponse.Status r <> "success"
        /\ In None (APIResponse.Errors (APIResponse.Messages r)).
Proof.
  split; [apply makeRequest_Panic_inv|].
  intros (r & Hdo & Hs & Hin).
  destruct (makeRequest_envelope c (method_of call) (uri_of call) body w r
              Hdo) as (_ & _ & _ & Hpanic).
  apply Hpanic; assumption.
Qed.

End Results.

(** ** The fetch of the zone *)

Section Fetch.

Context {collab : Collaborators}.

Import strings util strconv.

Lemma getHostedZone_run (c : DNSProvider) (fqdn : string) (w : World) :
  getHostedZone c fqdn w
  = match FindZoneByFqdn fqdn (dns01Nameservers c) with
    | inl e => (Fail e, w)
    | inr authZone =>
        let (o, w1) :=
          makeRequest c "GET" "/dns/zones/show"
            (JObject [("zone", JString (UnFqdn authZone))]) w in
        match o with
        | Return raw =>
            match Unmarshal_dnsZone raw with
            | inl e => (Fail e, w1)
            | inr zone => (Return zone, w1)
            end
        | Fail e => (Fail e, w1)
        | Panic => (Panic, w1)
        end
    end.
Proof.
  unfold getHostedZone.
  destruct (FindZoneByFqdn fqdn (dns01Nameservers c)); [reflexivity|].
  unfold bind, Marshal.of_zone_request.
  destruct (makeRequest _ _ _ _ w) as [[raw | e |] w1]; try reflexivity.
  destruct (Unmarshal_dnsZone raw); reflexivity.
Qed.

(** X6.  When the lookup of the zone fails, [getHostedZone] returns the
    error of the lookup as it is and sends nothing.  Otherwise it sends one
    GET to [/dns/zones/show] that asks for the zone the lookup found,
    without its trailing dot, and it returns a zone exactly when that
    request returns a payload and the payload decodes to the zone; a
    payload that does not decode gives the error of the decoder. *)
Theorem getHostedZone_cases (c : DNSProvider) (fqdn : string) (w : World) :
  let lookup := FindZoneByFqdn fqdn (dns01Nameservers c) in
  let show authZone :=
    makeRequest c "GET" "/dns/zones/show"
      (JObject [("zone", JString (UnFqdn authZone))]) w in
  (forall e, lookup = inl e -> getHostedZone c fqdn w = (Fail e, w))
  /\ (forall authZone,
        lookup = inr authZone ->
        issued (getHostedZone c fqdn) w
        = [request c "GET" "/dns/zones/show"
             (JObject [("zone", JString (UnFqdn authZone))])]
        /\ snd (getHostedZone c fqdn w) = snd (show authZone))
  /\ (forall zone,
        fst (getHostedZone c fqdn w) = Return zone
        <-> exists authZone raw,
              lookup = inr authZone
              /\ fst (show authZone) = Return raw
              /\ Unmarshal_dnsZone raw = inr zone)
  /\ (forall authZone raw e,
        lookup = inr authZone ->
        fst (show authZone) = Return raw ->
        Unmarshal_dnsZone raw = inl e ->
        fst (getHostedZone c fqdn w) = Fail e).
Proof.
  intros lookup show.
  pose proof (getHostedZone_issued c fqdn w) as Hissued.
  fold lookup in Hissued. subst show. cbv beta.
  rewrite getHostedZone_run. fold lookup.
  destruct lookup as [e0 | authZone0].
  - split; [|split; [|split]].
    + intros e [= <-]. reflexivity.
    + discriminate.
    + intros zone. split; [discriminate|].
      intros (authZone & raw & H & _). discriminate.
    + discriminate.
  - destruct (makeRequest c "GET" "/dns/zones/show"
                (JObject [("zone", JString (UnFqdn authZone0))]) w)
      as [[raw0 | e0 |] w1] eqn:E.
    + split; [discriminate|]. split; [|split].
      * intros authZone [= <-]. rewrite E. split; [exact Hissued|].
        destruct (Unmarshal_dnsZone raw0); reflexivity.
      * intros zone. split.
        -- destruct (Unmarshal_dnsZone raw0) eqn:U; [discriminate|].
           intros [= <-]. exists authZone0, raw0. rewrite E. auto.
        -- intros (authZone & raw & [= <-] & Hraw & U).
           rewrite E in Hraw. injection Hraw as <-. now rewrite U.
      * intros authZone raw e [= <-] Hraw U.
        rewrite E in Hraw. injection Hraw as <-. now rewrite U.
    + split; [discriminate|]. split; [|split].
      * intros authZone [= <-]. rewrite E. split; [exact Hissued|reflexivity].
      * intros zone. split; [discriminate|].
        intros (authZone & raw & [= <-] & Hraw & _).
        rewrite E in Hraw. discriminate.
      * intros authZone raw e [= <-] Hraw. rewrite E in Hraw. discriminate.
    + split; [discriminate|]. split; [|split].
      * intros authZone [= <-]. rewrite E. split; [exact Hissued|reflexivity].
      * intros zone. split; [discriminate|].
        intros (authZone & raw & [= <-] & Hraw & _).
        rewrite E in Hraw. discriminate.
      * intros authZone raw e [= <-] Hraw. rewrite E in Hraw. discriminate.
Qed.

Lemma getHostedZone_quiet (c : DNSProvider) (fqdn : string) (w : World) :
  filter is_mutating (issued (getHostedZone c fqdn) w) = [].
Proof.
  rewrite getHostedZone_issued.
  destruct (FindZoneByFqdn fqdn (dns01Nameservers c)); reflexivity.
Qed.

Lemma getHostedZone_Panic_inv (c : DNSProvider) (fqdn : string)
  (w w1 : World) :
  getHostedZone c fqdn w = (Panic, w1) ->
  exists authZone,
    FindZoneByFqdn fqdn (dns01Nameservers c) = inr authZone
    /\ fst (makeRequest c "GET" "/dns/zones/show"
              (JObject [("zone", JString (UnFqdn authZone))]) w) = Panic.
Proof.
  rewrite getHostedZone_run.
  destruct (FindZoneByFqdn fqdn (dns01Nameservers c)) as [e | authZone];
    [discriminate|].
  destruct (makeRequest _ _ _ _ w) as [[raw | e |] w'] eqn:E.
  - destruct (Unmarshal_dnsZone raw); discriminate.
  - discriminate.
  - intros _. exists authZone. rewrite E. auto.
Qed.

(** X7.  When the fetch of the zone fails, [Present] and [CleanUp] return
    its error as it is, in the world the fetch left: neither sends a
    request to a record endpoint. *)
Theorem fetch_failure_stops
  (c : DNSProvider) (domain fqdn value : string) (w w1 : World) (e : error) :
  getHostedZone c fqdn w = (Fail e, w1) ->
  Present c domain fqdn value w = (Fail e, w1)
  /\ CleanUp c domain fqdn value w = (Fail e, w1)
  /\ issued (Present c domain fqdn value) w = issued (getHostedZone c fqdn) w
  /\ issued (CleanUp c domain fqdn value) w = issued (getHostedZone c fqdn) w
  /\ filter is_mutating (issued (Present c domain fqdn value) w) = []
  /\ filter is_mutating (issued (CleanUp c domain fqdn value) w) = [].
Proof.
  intros Hfetch.
  assert (HP : issued (Present c domain fqdn value) w
               = issued (getHostedZone c fqdn) w).
  { rewrite Present_issued. unfold Present_mutations.
    rewrite Hfetch. apply app_nil_r. }
  assert (HC : issued (CleanUp c domain fqdn value) w
               = issued (getHostedZone c fqdn) w).
  { rewrite CleanUp_issued. unfold CleanUp_mutations.
    rewrite Hfetch. apply app_nil_r. }
  split; [|split; [|split; [|split; [|split]]]].
  - now rewrite Present_run, Hfetch.
  - now rewrite CleanUp_run, Hfetch.
  - exact HP.
  - exact HC.
  - rewrite HP. apply getHostedZone_quiet.
  - rewrite HC. apply getHostedZone_quiet.
Qed.

(** X3.  When the exchange for the fetch of the zone fails, [Present] and
    [CleanUp] return an error whose text is [error querying API -> ]
    followed by the text of the cause; when the response to the fetch does
    not decode as an envelope, they return the error of the decoder as it
    is.  Either way the fetch is all they sent. *)
Theorem fetch_exchange_failures
  (c : DNSProvider) (domain fqdn value : string) (w : World)
  (authZone : string) :
  FindZoneByFqdn fqdn (dns01Nameservers c) = inr authZone ->
  let fetch := showRequest c authZone in
  (forall cause,
     snd (Do (remote w) fetch) = DoError cause ->
     Present c domain fqdn value w
     = (Fail (errorString ("error querying API -> " ++ Error cause)),
        exchanged fetch w)
     /\ CleanUp c domain fqdn value w
        = (Fail (errorString ("error querying API -> " ++ Error cause)),
           exchanged fetch w))
  /\ (forall cause,
        snd (Do (remote w) fetch) = DecodeError cause ->
        Present c domain fqdn value w = (Fail cause, exchanged fetch w)
        /\ CleanUp c domain fqdn value w = (Fail cause, exchanged fetch w))
  /\ (forall cause,
        snd (Do (remote w) fetch) = DoError cause
        \/ snd (Do (remote w) fetch) = DecodeError cause ->
        issued (Present c domain fqdn value) w = [fetch]
        /\ issued (CleanUp c domain fqdn value) w = [fetch]).
Proof.
  intros Hz fetch.
  assert (Hfetch : forall e,
    fst (makeRequest c "GET" "/dns/zones/show"
           (JObject [("zone", JString (UnFqdn authZone))]) w) = Fail e ->
    getHostedZone c fqdn w = (Fail e, exchanged fetch w)).
  { intros e He. rewrite getHostedZone_run, Hz, makeRequest_pair, He.
    reflexivity. }
  assert (Hboth : forall e,
    getHostedZone c fqdn w = (Fail e, exchanged fetch w) ->
    Present c domain fqdn value w = (Fail e, exchanged fetch w)
    /\ CleanUp c domain fqdn value w = (Fail e, exchanged fetch w)).
  { intros e He. now rewrite Present_run, CleanUp_run, He. }
  assert (Htrace : forall e,
    getHostedZone c fqdn w = (Fail e, exchanged fetch w) ->
    issued (Present c domain fqdn value) w = [fetch]
    /\ issued (CleanUp c domain fqdn value) w = [fetch]).
  { intros e He. rewrite Present_issued, CleanUp_issued.
    unfold Present_mutations, CleanUp_mutations.
    rewrite He, getHostedZone_issued, Hz. auto. }
  assert (Hdo : forall cause,
    snd (Do (remote w) fetch) = DoError cause ->
    fst (makeRequest c "GET" "/dns/zones/show"
           (JObject [("zone", JString (UnFqdn authZone))]) w)
    = Fail (errorString ("error querying API -> " ++ Error cause))).
  { intros cause H. unfold makeRequest.
    change (Request.mk "GET" (APIURL ++ "/dns/zones/show") _ _ _)
      with fetch.
    destruct (Do (remote w) fetch) as [s reply]. simpl in H. now subst. }
  assert (Hdecode : forall cause,
    snd (Do (remote w) fetch) = DecodeError cause ->
    fst (makeRequest c "GET" "/dns/zones/show"
           (JObject [("zone", JString (UnFqdn authZone))]) w)
    = Fail cause).
  { intros cause H. unfold makeRequest.
    change (Request.mk "GET" (APIURL ++ "/dns/zones/show") _ _ _)
      with fetch.
    destruct (Do (remote w) fetch) as [s reply]. simpl in H. now subst. }
  split; [|split].
  - intros cause H. apply Hboth, Hfetch, Hdo, H.
  - intros cause H. apply Hboth, Hfetch, Hdecode, H.
  - intros cause [H | H].
    + eapply Htrace, Hfetch, Hdo, H.
    + eapply Htrace, Hfetch, Hdecode, H.
Qed.

End Fetch.

(** ** The shape of a run *)

Section Shapes.

Context {collab : Collaborators}.

Import strings util strconv.

Lemma Present_issued_shape (c : DNSProvider) (domain fqdn value : string)
  (w : World) :
  issued (Present c domain fqdn value) w = []
  \/ exists authZone zoneName name,
       issued (Present c domain fqdn value) w = [showRequest c authZone]
       \/ issued (Present c domain fqdn value) w
          = [showRequest c authZone; deleteRequest c zoneName name]
       \/ issued (Present c domain fqdn value) w
          = [showRequest c authZone; deleteRequest c zoneName name;
             addRequest c zoneName name value]
       \/ issued (Present c domain fqdn value) w
          = [showRequest c authZone; addRequest c zoneName name value].
Proof.
  rewrite Present_issued, getHostedZone_issued. unfold Present_mutations.
  destruct (getHostedZone c fqdn w) as [[zone | e |] w1] eqn:Hfetch.
  - destruct (getHostedZone_Return _ _ _ _ _ Hfetch) as (authZone & -> & _).
    right. exists authZone, (dnsZone.Name (dnsZone.Zone zone)),
      (relativeName fqdn (dnsZone.Name (dnsZone.Zone zone))).
    cbv zeta. destruct (find _ _) as [found|]; [|auto].
    destruct (dnsRecord.Data found =? value); [auto|].
    destruct (succeeds _); auto.
  - destruct (FindZoneByFqdn fqdn (dns01Nameservers c)) as [e' | authZone];
      [auto|].
    right. exists authZone, "", "". auto.
  - destruct (FindZoneByFqdn fqdn (dns01Nameservers c)) as [e' | authZone];
      [auto|].
    right. exists authZone, "", "". auto.
Qed.

Lemma CleanUp_issued_shape (c : DNSProvider) (domain fqdn value : string)
  (w : World) :
  issued (CleanUp c domain fqdn value) w = []
  \/ exists authZone zoneName name,
       issued (CleanUp c domain fqdn value) w = [showRequest c authZone]
       \/ issued (CleanUp c domain fqdn value) w
          = [showRequest c authZone; deleteRequest c zoneName name].
Proof.
  rewrite CleanUp_issued, getHostedZone_issued. unfold CleanUp_mutations.
  destruct (getHostedZone c fqdn w) as [[zone | e |] w1] eqn:Hfetch.
  - destruct (getHostedZone_Return _ _ _ _ _ Hfetch) as (authZone & -> & _).
    right. exists authZone, (dnsZone.Name (dnsZone.Zone zone)),
      (relativeName fqdn (dnsZone.Name (dnsZone.Zone zone))).
    cbv zeta. destruct (find _ _) as [found|]; auto.
  - destruct (FindZoneByFqdn fqdn (dns01Nameservers c)) as [e' | authZone];
      [auto|].
    right. exists authZone, "", "". auto.
  - destruct (FindZoneByFqdn fqdn (dns01Nameservers c)) as [e' | authZone];
      [auto|].
    right. exists authZone, "", "". auto.
Qed.

(** X8.  Whatever the provider answers, [Present] sends nothing, or the
    fetch alone, or the fetch followed by a delete, by a delete and then a
    create, or by a create: at most three requests, at most one delete and
    at most one create, the fetch first and never a delete after a
    create. *)
Theorem Present_requests_bounded
  (c : DNSProvider) (domain fqdn value : string) (w : World) :
  let trace := issued (Present c domain fqdn value) w in
  (trace = []
   \/ exists authZone zoneName name,
        trace = [showRequest c authZone]
        \/ trace = [showRequest c authZone; deleteRequest c zoneName name]
        \/ trace = [showRequest c authZone; deleteRequest c zoneName name;
                    addRequest c zoneName name value]
        \/ trace = [showRequest c authZone;
                    addRequest c zoneName name value])
  /\ List.length trace <= 3
  /\ List.length (filter is_delete trace) <= 1
  /\ List.length (filter is_add trace) <= 1.
Proof.
  intros trace. pose proof (Present_issued_shape c domain fqdn value w) as H.
  fold trace in H. split; [exact H|].
  destruct H as [-> | (authZone & zoneName & name & [-> | [-> | [-> | ->]]])];
    simpl; repeat split; lia.
Qed.

(** X9.  Whatever the provider answers, [CleanUp] sends nothing, or the
    fetch alone, or the fetch followed by one delete: at most two requests,
    and never a create. *)
Theorem CleanUp_requests_bounded
  (c : DNSProvider) (domain fqdn value : string) (w : World) :
  let trace := issued (CleanUp c domain fqdn value) w in
  (trace = []
   \/ exists authZone zoneName name,
        trace = [showRequest c authZone]
        \/ trace = [showRequest c authZone; deleteRequest c zoneName name])
  /\ List.length trace <= 2
  /\ filter is_add trace = [].
Proof.
  intros trace. pose proof (CleanUp_issued_shape c domain fqdn value w) as H.
  fold trace in H. split; [exact H|].
  destruct H as [-> | (authZone & zoneName & name & [-> | ->])];
    simpl; repeat split; lia.
Qed.

(** X10.  Every request [Present] or [CleanUp] sends with a provider made
    by [NewDNSProviderCredentials] carries the key given at construction as
    its only query parameter, [authToken], the user agent of cert-manager
    and the JSON content type as headers, and goes to one of the three
    endpoints under the fixed base URL. *)
Theorem requests_carry_the_key
  (key : string) (dns01Nameservers : list string) (c : DNSProvider)
  (domain fqdn value : string) (w : World) (req : Request.t) :
  fst (NewDNSProviderCredentials key dns01Nameservers) = Some c ->
  In req (issued (Present c domain fqdn value) w)
  \/ In req (issued (CleanUp c domain fqdn value) w) ->
  Request.Query req = [("authToken", key)]
  /\ Request.Header req
     = [("User-Agent", CertManagerUserAgent);
        ("Content-Type", "application/json")]
  /\ (Request.URL req = APIURL ++ "/dns/zones/show"
      \/ Request.URL req = APIURL ++ "/dns/zones/records/delete"
      \/ Request.URL req = APIURL ++ "/dns/zones/records/add").
Proof.
  unfold NewDNSProviderCredentials.
  destruct (key =? ""); [discriminate|]. intros [= <-] Hin.
  set (c := mkDNSProvider dns01Nameservers key) in *.
  assert (Hreq : exists method uri body,
    req = request c method uri body
    /\ (uri = "/dns/zones/show" \/ uri = "/dns/zones/records/delete"
        \/ uri = "/dns/zones/records/add")).
  { destruct Hin as [Hin | Hin].
    - destruct (Present_issued_shape c domain fqdn value w)
        as [H | (authZone & zoneName & name & [H | [H | [H | H]]])];
        rewrite H in Hin; simpl in Hin;
        repeat (destruct Hin as [<- | Hin];
                [do 3 eexists; split; [reflexivity | tauto]|]);
        contradiction.
    - destruct (CleanUp_issued_shape c domain fqdn value w)
        as [H | (authZone & zoneName & name & [H | H])];
        rewrite H in Hin; simpl in Hin;
        repeat (destruct Hin as [<- | Hin];
                [do 3 eexists; split; [reflexivity | tauto]|]);
        contradiction. }
  destruct Hreq as (method & uri & body & -> & Huri).
  split; [reflexivity|]. split; [reflexivity|].
  simpl. destruct Huri as [-> | [-> | ->]]; auto.
Qed.

End Shapes.

(** ** What a result tells *)

Section Meaning.

Context {collab : Collaborators}.

Import strings util strconv.

(** X11.  When [Present] returns success, the zone was fetched and either
    the first record with the derived name held the value already and
    nothing more was sent, or the create request was the last request sent
    and it succeeded: sent right after the fetch when no record had the
    name, after a successful delete when the first such record held
    another value. *)
Theorem Present_success_means
  (c : DNSProvider) (domain fqdn value : string) (w : World) :
  fst (Present c domain fqdn value w) = Return tt ->
  exists zone w1,
    getHostedZone c fqdn w = (Return zone, w1)
    /\ let zoneName := dnsZone.Name (dnsZone.Zone zone) in
       let name := relativeName fqdn zoneName in
       let records := dnsZone.Records (dnsZone.Zone zone) in
       (exists r,
          first_match name records r
          /\ dnsRecord.Data r = value
          /\ snd (Present c domain fqdn value w) = w1)
       \/ (exists w2,
             ((no_match name records /\ w2 = w1)
              \/ ((exists r,
                     first_match name records r
                     /\ dnsRecord.Data r <> value)
                  /\ succeeds (delete_outcome c zoneName name w1) = true
                  /\ w2 = exchanged (deleteRequest c zoneName name) w1))
             /\ succeeds (add_outcome c zoneName name value w2) = true
             /\ snd (Present c domain fqdn value w)
                = exchanged (addRequest c zoneName name value) w2).
Proof.
  rewrite Present_run.
  destruct (getHostedZone c fqdn w) as [[zone | e |] w1]; try discriminate.
  intros H. exists zone, w1. split; [reflexivity|]. cbv zeta in *.
  destruct (find _ _) as [found|] eqn:F.
  - apply find_first_match in F.
    destruct (String.eqb_spec (dnsRecord.Data found) value) as [E|N].
    + left. exists found. auto.
    + right. destruct (delete_outcome _ _ _ w1) eqn:D; try discriminate.
      simpl in H. apply succeeds_void in H.
      eexists. split; [right; split; [eauto | split; reflexivity]|].
      split; [exact H | reflexivity].
  - apply find_no_match in F. right. simpl in H.
    apply succeeds_void in H.
    exists w1. split; [left; auto|]. split; [exact H | reflexivity].
Qed.

(** X12.  [CleanUp] returns success exactly when the zone was fetched and
    either no record has the derived name or the delete request
    succeeded. *)
Theorem CleanUp_success_iff
  (c : DNSProvider) (domain fqdn value : string) (w : World) :
  fst (CleanUp c domain fqdn value w) = Return tt
  <-> exists zone w1,
        getHostedZone c fqdn w = (Return zone, w1)
        /\ (no_match
              (relativeName fqdn (dnsZone.Name (dnsZone.Zone zone)))
              (dnsZone.Records (dnsZone.Zone zone))
            \/ succeeds
                 (delete_outcome c (dnsZone.Name (dnsZone.Zone zone))
                    (relativeName fqdn (dnsZone.Name (dnsZone.Zone zone)))
                    w1) = true).
Proof.
  rewrite CleanUp_run.
  destruct (getHostedZone c fqdn w) as [[zone | e |] w1].
  - cbv zeta. destruct (find _ _) as [found|] eqn:F.
    + simpl. rewrite succeeds_void. split.
      * intros H. exists zone, w1. auto.
      * intros (zone' & w1' & [= <- <-] & [Hnone | H]); [|exact H].
        apply find_no_match in Hnone. congruence.
    + apply find_no_match in F. split; [|reflexivity].
      intros _. exists zone, w1. auto.
  - split; [discriminate | intros (z & w' & H & _); discriminate].
  - split; [discriminate | intros (z & w' & H & _); discriminate].
Qed.


Lemma panicking_request (c : DNSProvider) (method uri : string)
  (body : json) (w0 : World) (s : Remote) :
  fst (makeRequest c method uri body w0) = Panic ->
  remote w0 = s ->
  exists r,
    snd (Do s (request c method uri body)) = Envelope r
    /\ APIResponse.Status r <> "success"
    /\ In None (APIResponse.Errors (APIResponse.Messages r)).
Proof. intros H <-. apply makeRequest_Panic_inv, H. Qed.

Lemma void_Panic {A : Type} (o : outcome A) : void o = Panic -> o = Panic.
Proof. destruct o; simpl; congruence. Qed.

(** X14.  [Present] and [CleanUp] panic only on a nil entry: when one of
    them panics, the last request of its run was answered, in the state the
    requests before it left the provider in, with an envelope whose status
    is not ["success"] and whose list of errors holds a nil entry. *)
Theorem panic_only_on_nil_entry
  (c : DNSProvider) (domain fqdn value : string) (w : World) :
  (fst (Present c domain fqdn value w) = Panic ->
   exists front req r,
     issued (Present c domain fqdn value) w = (front ++ [req])%list
     /\ snd (Do (replay front (remote w)) req) = Envelope r
     /\ APIResponse.Status r <> "success"
     /\ In None (APIResponse.Errors (APIResponse.Messages r)))
  /\ (fst (CleanUp c domain fqdn value w) = Panic ->
      exists front req r,
        issued (CleanUp c domain fqdn value) w = (front ++ [req])%list
        /\ snd (Do (replay front (remote w)) req) = Envelope r
        /\ APIResponse.Status r <> "success"
        /\ In None (APIResponse.Errors (APIResponse.Messages r))).
Proof.
  split; intros H.
  - rewrite Present_run in H.
    pose proof (Present_issued c domain fqdn value w) as Hissued.
    rewrite getHostedZone_issued in Hissued.
    unfold Present_mutations in Hissued.
    destruct (getHostedZone c fqdn w) as [[zone | e |] w1] eqn:Hfetch;
      try discriminate.
    + destruct (getHostedZone_Return _ _ _ _ _ Hfetch)
        as (authZone & Hz & ->).
      rewrite Hz in Hissued. cbv zeta in H, Hissued.
      destruct (find _ _) as [found|].
      * destruct (dnsRecord.Data found =? value); [discriminate|].
        destruct (delete_outcome _ _ _ _) eqn:D; try discriminate.
        -- simpl in H. apply void_Panic in H.
           destruct (panicking_request _ _ _ _ _ _ H eq_refl) as (r & Hr).
           exists [showRequest c authZone;
                   deleteRequest c (dnsZone.Name (dnsZone.Zone zone))
                     (relativeName fqdn (dnsZone.Name (dnsZone.Zone zone)))].
           eexists. exists r. split; [exact Hissued | exact Hr].
        -- destruct (panicking_request _ _ _ _ _ _ D eq_refl) as (r & Hr).
           exists [showRequest c authZone]. eexists. exists r.
           split; [exact Hissued | exact Hr].
      * simpl in H. apply void_Panic in H.
        destruct (panicking_request _ _ _ _ _ _ H eq_refl) as (r & Hr).
        exists [showRequest c authZone]. eexists. exists r.
        split; [exact Hissued | exact Hr].
    + destruct (getHostedZone_Panic_inv _ _ _ _ Hfetch)
        as (authZone & Hz & Hp).
      rewrite Hz in Hissued.
      destruct (panicking_request _ _ _ _ _ _ Hp eq_refl) as (r & Hr).
      exists []. eexists. exists r. split; [exact Hissued | exact Hr].
  - rewrite CleanUp_run in H.
    pose proof (CleanUp_issued c domain fqdn value w) as Hissued.
    rewrite getHostedZone_issued in Hissued.
    unfold CleanUp_mutations in Hissued.
    destruct (getHostedZone c fqdn w) as [[zone | e |] w1] eqn:Hfetch;
      try discriminate.
    + destruct (getHostedZone_Return _ _ _ _ _ Hfetch)
        as (authZone & Hz & ->).
      rewrite Hz in Hissued. cbv zeta in H, Hissued.
      destruct (find _ _) as [found|]; [|discriminate].
      simpl in H. apply void_Panic in H.
      destruct (panicking_request _ _ _ _ _ _ H eq_refl) as (r & Hr).
      exists [showRequest c authZone]. eexists. exists r.
      split; [exact Hissued | exact Hr].
    + destruct (getHostedZone_Panic_inv _ _ _ _ Hfetch)
        as (authZone & Hz & Hp).
      rewrite Hz in Hissued.
      destruct (panicking_request _ _ _ _ _ _ Hp eq_refl) as (r & Hr).
      exists []. eexists. exists r. split; [exact Hissued | exact Hr].
Qed.

End Meaning.

(** ** Calls in sequence *)

Section Sequences.

Context {collab : Collaborators}.

Import strings util strconv.

Lemma issued_three (w : World) (a b d : Request.t) (w' : World) :
  sent w' = sent (exchanged d (exchanged b (exchanged a w))) ->
  skipn (List.length (sent w)) (sent w') = [a; b; d].
Proof.
  intros ->. simpl. rewrite <- !app_assoc. apply skipn_length_app.
Qed.

Lemma issued_four (w : World) (a b d e : Request.t) (w' : World) :
  sent w'
  = sent (exchanged e (exchanged d (exchanged b (exchanged a w)))) ->
  skipn (List.length (sent w)) (sent w') = [a; b; d; e].
Proof.
  intros ->. simpl. rewrite <- !app_assoc. apply skipn_length_app.
Qed.

(** X15.  [Present] twice.  When no record has the derived name, the create
    of the first call succeeds and the provider then serves a zone whose
    first record of that name holds the value, the second call sends
    nothing but its fetch: the two calls together send one create, and
    both return success. *)
Theorem Present_twice_creates_once
  (c : DNSProvider) (domain fqdn value : string) (w w1 w3 : World)
  (zone1 zone2 : dnsZone.t) (r : dnsRecord.t) :
  let zoneName := dnsZone.Name (dnsZone.Zone zone1) in
  let name := relativeName fqdn zoneName in
  let create := addRequest c zoneName name value in
  getHostedZone c fqdn w = (Return zone1, w1) ->
  no_match name (dnsZone.Records (dnsZone.Zone zone1)) ->
  succeeds (add_outcome c zoneName name value w1) = true ->
  getHostedZone c fqdn (exchanged create w1) = (Return zone2, w3) ->
  first_match (relativeName fqdn (dnsZone.Name (dnsZone.Zone zone2)))
              (dnsZone.Records (dnsZone.Zone zone2)) r ->
  dnsRecord.Data r = value ->
  (_ <- Present c domain fqdn value ;; Present c domain fqdn value) w
  = (Return tt, w3)
  /\ exists authZone,
       issued (_ <- Present c domain fqdn value ;;
               Present c domain fqdn value) w
       = [showRequest c authZone; create; showRequest c authZone].
Proof.
  intros zoneName name create Hfetch1 Hnone Hadd Hfetch2 Hfirst Hdata.
  apply find_no_match in Hnone. apply find_first_match in Hfirst.
  assert (H1 : Present c domain fqdn value w
               = (Return tt, exchanged create w1)).
  { rewrite Present_run, Hfetch1. cbv zeta. fold zoneName name.
    rewrite Hnone. fold create.
    destruct (add_outcome c zoneName name value w1); try discriminate.
    reflexivity. }
  assert (H2 : Present c domain fqdn value (exchanged create w1)
               = (Return tt, w3)).
  { rewrite Present_run, Hfetch2. cbv zeta. rewrite Hfirst.
    now rewrite (proj2 (String.eqb_eq _ _) Hdata). }
  assert (Hrun : (_ <- Present c domain fqdn value ;;
                  Present c domain fqdn value) w = (Return tt, w3)).
  { unfold bind. now rewrite H1, H2. }
  split; [exact Hrun|].
  destruct (getHostedZone_Return _ _ _ _ _ Hfetch1) as (authZone & Hz & ->).
  destruct (getHostedZone_Return _ _ _ _ _ Hfetch2) as (authZone' & Hz' & ->).
  rewrite Hz in Hz'. injection Hz' as <-.
  exists authZone. unfold issued. rewrite Hrun. simpl snd.
  apply issued_three. reflexivity.
Qed.

(** X16.  [Present] and then [CleanUp].  When no record has the derived
    name, the create of [Present] succeeds and the provider then serves a
    zone with a record of the derived name, [CleanUp] sends the delete for
    that name: the two calls send the fetch, the create, the fetch and the
    delete, and the result is the result of the delete. *)
Theorem Present_then_CleanUp
  (c : DNSProvider) (domain fqdn value : string) (w w1 w3 : World)
  (zone1 zone2 : dnsZone.t) (r : dnsRecord.t) :
  let zoneName := dnsZone.Name (dnsZone.Zone zone1) in
  let name := relativeName fqdn zoneName in
  let create := addRequest c zoneName name value in
  let zoneName2 := dnsZone.Name (dnsZone.Zone zone2) in
  let name2 := relativeName fqdn zoneName2 in
  getHostedZone c fqdn w = (Return zone1, w1) ->
  no_match name (dnsZone.Records (dnsZone.Zone zone1)) ->
  succeeds (add_outcome c zoneName name value w1) = true ->
  getHostedZone c fqdn (exchanged create w1) = (Return zone2, w3) ->
  first_match name2 (dnsZone.Records (dnsZone.Zone zone2)) r ->
  (_ <- Present c domain fqdn value ;; CleanUp c domain fqdn value) w
  = (void (delete_outcome c zoneName2 name2 w3),
     exchanged (deleteRequest c zoneName2 name2) w3)
  /\ exists authZone,
       issued (_ <- Present c domain fqdn value ;;
               CleanUp c domain fqdn value) w
       = [showRequest c authZone; create; showRequest c authZone;
          deleteRequest c zoneName2 name2].
Proof.
  intros zoneName name create zoneName2 name2
    Hfetch1 Hnone Hadd Hfetch2 Hfirst.
  apply find_no_match in Hnone. apply find_first_match in Hfirst.
  assert (H1 : Present c domain fqdn value w
               = (Return tt, exchanged create w1)).
  { rewrite Present_run, Hfetch1. cbv zeta. fold zoneName name.
    rewrite Hnone. fold create.
    destruct (add_outcome c zoneName name value w1); try discriminate.
    reflexivity. }
  assert (H2 : CleanUp c domain fqdn value (exchanged create w1)
               = (void (delete_outcome c zoneName2 name2 w3),
                  exchanged (deleteRequest c zoneName2 name2) w3)).
  { rewrite CleanUp_run, Hfetch2. cbv zeta. fold zoneName2 name2.
    now rewrite Hfirst. }
  assert (Hrun : (_ <- Present c domain fqdn value ;;
                  CleanUp c domain fqdn value) w
                 = (void (delete_outcome c zoneName2 name2 w3),
                    exchanged (deleteRequest c zoneName2 name2) w3)).
  { unfold bind. now rewrite H1, H2. }
  split; [exact Hrun|].
  destruct (getHostedZone_Return _ _ _ _ _ Hfetch1) as (authZone & Hz & ->).
  destruct (getHostedZone_Return _ _ _ _ _ Hfetch2) as (authZone' & Hz' & ->).
  rewrite Hz in Hz'. injection Hz' as <-.
  exists authZone. unfold issued. rewrite Hrun. simpl snd.
  apply issued_four. reflexivity.
Qed.

End Sequences.

(** ** The encoding and the derived name *)

Section Encoding.

Import strings util strconv.






(** X18.  The derived relative name is a prefix of the fqdn: the fqdn is
    the name followed by nothing, by a dot, by a dot and the zone's name,
    or by a dot, the zone's name and a dot.  So the name is never longer
    than the fqdn, and an fqdn with and without its trailing dot give the
    same name. *)
Theorem relativeName_prefix (fqdn zoneName : string) :
  let name := relativeName fqdn zoneName in
  (fqdn = name
   \/ fqdn = name ++ "."
   \/ fqdn = name ++ "." ++ zoneName
   \/ fqdn = name ++ "." ++ zoneName ++ ".")
  /\ String.length name <= String.length fqdn
  /\ ((forall p, fqdn <> p ++ ".") ->
      relativeName (fqdn ++ ".") zoneName = name).
Proof.
  intros name. subst name. unfold relativeName, Sprintf_dot.
  assert (Hshape :
    fqdn = TrimSuffix (UnFqdn fqdn) ("." ++ zoneName)
    \/ fqdn = TrimSuffix (UnFqdn fqdn) ("." ++ zoneName) ++ "."
    \/ fqdn = TrimSuffix (UnFqdn fqdn) ("." ++ zoneName) ++ "." ++ zoneName
    \/ fqdn = TrimSuffix (UnFqdn fqdn) ("." ++ zoneName)
              ++ "." ++ zoneName ++ ".").
  { destruct (UnFqdn_cases fqdn) as [[p [-> ->]] | [Hno ->]].
    - destruct (HasSuffix p ("." ++ zoneName)) eqn:E.
      + apply HasSuffix_iff in E as [q ->]. rewrite TrimSuffix_append.
        right; right; right. now rewrite !append_assoc.
      + rewrite TrimSuffix_noop by exact E. auto.
    - destruct (HasSuffix fqdn ("." ++ zoneName)) eqn:E.
      + apply HasSuffix_iff in E as [q ->]. rewrite TrimSuffix_append.
        auto.
      + rewrite TrimSuffix_noop by exact E. auto. }
  split; [exact Hshape|]. split.
  - destruct Hshape as [H | [H | [H | H]]];
      apply (f_equal String.length) in H;
      rewrite ?length_append in H; lia.
  - intros Hno. rewrite UnFqdn_dot.
    destruct (UnFqdn_cases fqdn) as [[p [-> _]] | [_ ->]]; [|reflexivity].
    exfalso. eapply Hno. reflexivity.
Qed.

End Encoding.

(** ** More runs on the in-memory provider *)

Section MoreRuns.

Import strings util strconv.
Import InMemory.

Lemma fetch_exchange_failures_witness :
  @Present Offline.collaborators provider "example.com" Inputs.fqdn "abc123"
    Offline.world
  = (Fail (errorString "error querying API -> dial tcp: i/o timeout"),
     @exchanged Offline.collaborators
       (@showRequest Offline.collaborators provider "example.com.")
       Offline.world).
Proof.
  destruct (@fetch_exchange_failures Offline.collaborators provider
              "example.com" Inputs.fqdn "abc123" Offline.world
              "example.com.") as (Hdo & _).
  - vm_compute. reflexivity.
  - destruct (Hdo Offline.cause) as (HP & _); [reflexivity|].
    exact HP.
Defined.

Lemma makeRequest_error_text_witness :
  fst (makeRequest provider "POST" "/dns/zones/records/add"
         (addBody "example.com" "_acme-challenge" "abc123")
         Cases.stale_no_add)
  = Fail (errorString
            ("API Error " ++ newline
             ++ tab ++ " Error: 1002: quota exceeded"
             ++ tab ++ " Error: -7: try later")).
Proof.
  pose proof (makeRequest_error_text provider AddRecords
                (addBody "example.com" "_acme-challenge" "abc123")
                Cases.stale_no_add
                (APIResponse.mk (APIResponse.mkMetaData "" "tx")
                   (APIResponse.mkMessages
                      [Some (APIMessage.mk 1002 "quota exceeded");
                       Some (APIMessage.mk (-7) "try later")] [] [])
                   "error" NoPayload)
                (APIMessage.mk 1002 "quota exceeded")
                [APIMessage.mk (-7) "try later"]) as Htext.
  cbn [method_of uri_of] in Htext.
  rewrite Htext.
  - vm_compute. reflexivity.
  - vm_compute. reflexivity.
  - discriminate.
  - reflexivity.
Defined.

Lemma getHostedZone_cases_witness :
  getHostedZone provider Cases.unknown_fqdn Inputs.fresh
  = (Fail (errorString "could not find the start of authority"),
     Inputs.fresh).
Proof.
  destruct (getHostedZone_cases provider Cases.unknown_fqdn Inputs.fresh)
    as (Hlookup & _).
  apply Hlookup. vm_compute. reflexivity.
Defined.

Lemma fetch_failure_stops_witness :
  Present provider "example.com" Cases.unknown_fqdn "abc123" Inputs.fresh
  = (Fail (errorString "could not find the start of authority"),
     Inputs.fresh)
  /\ CleanUp provider "example.com" Cases.unknown_fqdn "abc123" Inputs.fresh
     = (Fail (errorString "could not find the start of authority"),
        Inputs.fresh).
Proof.
  destruct (fetch_failure_stops provider "example.com" Cases.unknown_fqdn
              "abc123" Inputs.fresh Inputs.fresh
              (errorString "could not find the start of authority"))
    as (HP & HC & _).
  - vm_compute. reflexivity.
  - split; assumption.
Defined.

Lemma requests_carry_the_key_witness :
  Request.Query Inputs.del = [("authToken", "secret")].
Proof.
  assert (Hin : In Inputs.del
                  (issued (CleanUp provider "example.com" Inputs.fqdn
                             "abc123") Inputs.stale))
    by (vm_compute; auto).
  destruct (requests_carry_the_key "secret" ["8.8.8.8:53"] provider
              "example.com" Inputs.fqdn "abc123" Inputs.stale Inputs.del
              eq_refl (or_intror Hin)) as (Hquery & _).
  exact Hquery.
Defined.

Lemma Present_success_means_witness :
  exists zone w1,
    getHostedZone provider Inputs.fqdn Inputs.empty = (Return zone, w1).
Proof.
  destruct (Present_success_means provider "example.com" Inputs.fqdn
              "abc123" Inputs.empty) as (zone & w1 & Hfetch & _).
  - vm_compute. reflexivity.
  - exists zone, w1. exact Hfetch.
Defined.


Lemma panic_only_on_nil_entry_witness :
  exists front req r,
    issued (Present provider "example.com" Inputs.fqdn "abc123")
           Inputs.null_error
    = (front ++ [req])%list
    /\ snd (Do (replay front (remote Inputs.null_error)) req) = Envelope r
    /\ APIResponse.Status r <> "success"
    /\ In None (APIResponse.Errors (APIResponse.Messages r)).
Proof.
  destruct (panic_only_on_nil_entry provider "example.com" Inputs.fqdn
              "abc123" Inputs.null_error) as (HP & _).
  apply HP. vm_compute. reflexivity.
Defined.

Lemma Present_twice_creates_once_witness :
  (_ <- Present provider "example.com" Inputs.fqdn "abc123" ;;
   Present provider "example.com" Inputs.fqdn "abc123") Inputs.empty
  = (Return tt,
     exchanged Inputs.show
       (exchanged Inputs.add (exchanged Inputs.show Inputs.empty))).
Proof.
  destruct (Present_twice_creates_once provider "example.com" Inputs.fqdn
              "abc123" Inputs.empty (exchanged Inputs.show Inputs.empty)
              (exchanged Inputs.show
                 (exchanged Inputs.add (exchanged Inputs.show Inputs.empty)))
              (Inputs.zone_of Inputs.empty) (Inputs.zone_of Inputs.fresh)
              (txt "_acme-challenge" "abc123")) as (Hrun & _).
  - vm_compute. reflexivity.
  - constructor.
  - vm_compute. reflexivity.
  - vm_compute. reflexivity.
  - exists [], []. vm_compute. repeat split. constructor.
  - reflexivity.
  - exact Hrun.
Defined.

Lemma Present_then_CleanUp_witness :
  exists authZone,
    issued (_ <- Present provider "example.com" Inputs.fqdn "abc123" ;;
            CleanUp provider "example.com" Inputs.fqdn "abc123")
           Inputs.empty
    = [showRequest provider authZone; Inputs.add;
       showRequest provider authZone; Inputs.del].
Proof.
  destruct (Present_then_CleanUp provider "example.com" Inputs.fqdn
              "abc123" Inputs.empty (exchanged Inputs.show Inputs.empty)
              (exchanged Inputs.show
                 (exchanged Inputs.add (exchanged Inputs.show Inputs.empty)))
              (Inputs.zone_of Inputs.empty) (Inputs.zone_of Inputs.fresh)
              (txt "_acme-challenge" "abc123")) as (_ & Hissued).
  - vm_compute. reflexivity.
  - constructor.
  - vm_compute. reflexivity.
  - vm_compute. reflexivity.
  - exists [], []. vm_compute. repeat split. constructor.
  - exact Hissued.
Defined.

End MoreRuns.
